(** * Bytescale file provider: a shallow embedding of
      [src/providers/bytescale/service.ts] and its properties.

    The provider is a thin adapter between the host (Medusa) and the
    Bytescale SDK.  The SDK, the fetch polyfill and the logger are
    collaborators of the adapter: the SDK appears here as an interface
    ([Sdk]) whose operations are arbitrary functions of the request and
    of the remote state, and every remote call, client construction and
    log line is an event appended to a trace. *)

From Stdlib Require Import String Ascii List ZArith Lia Bool Permutation.
Import ListNotations.
Local Open Scope string_scope.

(** ** JavaScript strings

    A JS string is a sequence of code units; the adapter only ever
    inspects the code unit ["/"], so [String.string] is used with one
    [ascii] per code unit. *)
Module Js.

(** A value that is a string or [undefined]. *)
Definition value : Type := option string.

(** ToBoolean on a string-or-undefined: [undefined] and [""] are falsy. *)
Definition truthy (v : value) : bool :=
  match v with
  | None => false
  | Some s => negb (s =? "")
  end.

(** [v || d] for a string default [d]. *)
Definition or_else (v : value) (d : string) : string :=
  match v with
  | Some s => if truthy v then s else d
  | None => d
  end.

(** [s.startsWith(p)]. *)
Definition startsWith (s p : string) : bool := String.prefix p s.

(** [s.endsWith(p)]: [p] sits at offset [length s - length p]. *)
Definition endsWith (s p : string) : bool :=
  (String.length p <=? String.length s)%nat &&
  (substring (String.length s - String.length p) (String.length p) s =? p).

(** [s.slice(b, e)]: negative indices count from the end, both are
    clamped to the string. *)
Definition slice (s : string) (b e : Z) : string :=
  let len := Z.of_nat (String.length s) in
  let from := if (b <? 0)%Z then Z.max (len + b) 0 else Z.min b len in
  let to := if (e <? 0)%Z then Z.max (len + e) 0 else Z.min e len in
  substring (Z.to_nat from) (Z.to_nat (Z.max (to - from) 0)) s.

End Js.

(** ** Errors, outcomes, buffers and streams *)

(** [MedusaError.Types.INVALID_DATA] is the only kind the adapter raises
    itself; every other error comes from a collaborator and carries the
    name of its class. *)
Inductive ErrorType : Type :=
| INVALID_DATA
| External (name : string).

(** An [Error] object: the adapter reads [error.message] only. *)
Record Error : Type := { etype : ErrorType; message : string }.

(** How a call ends: it returns (a promise resolves) or it throws (a
    promise rejects). *)
Inductive Outcome (A : Type) : Type :=
| Returned (a : A)
| Thrown (e : Error).
Arguments Returned {A} a.
Arguments Thrown {A} e.

(** A promise, seen through its settlement. *)
Definition Promise (A : Type) : Type := Outcome A.

Definition Buffer : Type := list Byte.byte.

(** A readable byte stream, seen through what a reader gets out of it:
    the chunks, then a clean end or an error. *)
Record Readable : Type := { chunks : list Buffer; failure : option Error }.

(** What the SDK accepts as [data]: [string | Buffer | Stream].  A
    writable/duplex stream object is known by its identity. *)
Inductive Data : Type :=
| Text (s : string)
| Bytes (b : Buffer)
| Stream (id : nat).

(** ** Host DTOs (from [@medusajs/framework/types]) *)

Module ProviderUploadFileDTO.
Record t : Type := { filename : string; mimeType : string; content : Data }.
End ProviderUploadFileDTO.

Module ProviderUploadStreamDTO.
Record t : Type := { filename : string; mimeType : string }.
End ProviderUploadStreamDTO.

Module ProviderDeleteFileDTO.
Record t : Type := { fileKey : string }.
End ProviderDeleteFileDTO.

(** The host may attach further properties to a get request; the
    adapter never reads them. *)
Module ProviderGetFileDTO.
Record t : Type := { fileKey : string; rest : list (string * string) }.
End ProviderGetFileDTO.

Module ProviderFileResultDTO.
Record t : Type := { url : string; key : string }.
End ProviderFileResultDTO.

(** ** The Bytescale SDK and the fetch response, as the adapter sees them *)
Module Bytescale.

(** [{ fetchApi: nodeFetch, apiKey }]: the polyfill is a constant. *)
Record Configuration : Type := { apiKey : Js.value }.

(** A constructed client holds its configuration. *)
Record UploadManager : Type := { um_config : Configuration }.
Record FileApi : Type := { fa_config : Configuration }.

(** Argument of [UploadManager.upload]; [folderPath] is [path.folderPath]. *)
Record UploadParams : Type := {
  data : Data;
  mime : string;
  originalFileName : string;
  folderPath : string
}.

Record UploadResult : Type := { fileUrl : string; filePath_ : string }.

(** Argument of [deleteFile], [downloadFile] and [UrlBuilder.url]. *)
Record FileParams : Type := { accountId : Js.value; filePath : string }.

(** The raw fetch response and the SDK's wrapper around it. *)
Record RawResponse : Type := { body : Readable }.
Record BinaryResult : Type := { raw : RawResponse }.

(** Modelled from the spec: the fetch polyfill's [buffer()] is not part
    of the repository; it "fully materializes the response body into an
    in-memory byte buffer", and rejects when the body stream fails. *)
Definition buffer (r : RawResponse) : Promise Buffer :=
  match failure (body r) with
  | None => Returned (concat (chunks (body r)))
  | Some e => Thrown e
  end.

(** The remote side.  [R] is the state of the remote service (and of
    the network); every asynchronous operation is an arbitrary function
    of the client, the request and that state.  [UrlBuilder.url] is a
    static, synchronous function of its argument.  The two class
    constructors check their configuration: they return, or throw (an
    api key the SDK does not accept). *)
Record Sdk (R : Type) : Type := {
  UploadManager_constructor : Configuration -> Outcome unit;
  FileApi_constructor : Configuration -> Outcome unit;
  upload : UploadManager -> UploadParams -> R -> Outcome UploadResult * R;
  deleteFile : FileApi -> FileParams -> R -> Outcome unit * R;
  downloadFile : FileApi -> FileParams -> R -> Outcome BinaryResult * R;
  UrlBuilder_url : FileParams -> Outcome string
}.
Arguments UploadManager_constructor {R} _ _.
Arguments FileApi_constructor {R} _ _.
Arguments upload {R} _ _ _ _.
Arguments deleteFile {R} _ _ _ _.
Arguments downloadFile {R} _ _ _ _.
Arguments UrlBuilder_url {R} _ _.

End Bytescale.

(** ** The world the adapter runs in *)

Inductive Event : Type :=
| NewUploadManager (c : Bytescale.Configuration)
| NewFileApi (c : Bytescale.Configuration)
| UploadCall (p : Bytescale.UploadParams)
| DeleteFileCall (p : Bytescale.FileParams)
| DownloadFileCall (p : Bytescale.FileParams)
| LoggerError (msg : string)
| LoggerWarn (msg : string).

(** [trace] is chronological (oldest first); [streams] counts the
    stream objects allocated so far. *)
Record World (R : Type) : Type := {
  trace : list Event;
  remote : R;
  streams : nat
}.
Arguments trace {R} _.
Arguments remote {R} _.
Arguments streams {R} _.

Definition is_network_call (ev : Event) : bool :=
  match ev with
  | UploadCall _ | DeleteFileCall _ | DownloadFileCall _ => true
  | _ => false
  end.

Definition is_client_construction (ev : Event) : bool :=
  match ev with
  | NewUploadManager _ | NewFileApi _ => true
  | _ => false
  end.

Definition is_log (ev : Event) : bool :=
  match ev with
  | LoggerError _ | LoggerWarn _ => true
  | _ => false
  end.

Definition network_calls (t : list Event) : list Event :=
  filter is_network_call t.

Definition logs (t : list Event) : list Event := filter is_log t.

(** ** Computations: state passing with exceptions *)

Definition M (R A : Type) : Type := World R -> Outcome A * World R.

Definition ret {R A} (a : A) : M R A := fun w => (Returned a, w).

Definition throw {R A} (e : Error) : M R A := fun w => (Thrown e, w).

Definition bind {R A B} (m : M R A) (k : A -> M R B) : M R B :=
  fun w =>
    match m w with
    | (Returned a, w') => k a w'
    | (Thrown e, w') => (Thrown e, w')
    end.

(** [try { m } catch (error) { h error }]. *)
Definition try_catch {R A} (m : M R A) (h : Error -> M R A) : M R A :=
  fun w =>
    match m w with
    | (Returned a, w') => (Returned a, w')
    | (Thrown e, w') => h e w'
    end.

Declare Scope js_scope.
Delimit Scope js_scope with js.
Notation "x <- m ;; k" := (bind m (fun x => k))
  (at level 61, m at next level, right associativity) : js_scope.
Notation "m ;;; k" := (bind m (fun _ => k))
  (at level 61, right associativity) : js_scope.
Local Open Scope js_scope.

Definition emit {R} (ev : Event) : M R unit :=
  fun w => (Returned tt,
            {| trace := trace w ++ [ev]; remote := remote w;
               streams := streams w |}).

(** The injected logger. *)
Definition logger_error {R} (msg : string) : M R unit := emit (LoggerError msg).
Definition logger_warn {R} (msg : string) : M R unit := emit (LoggerWarn msg).

(** A synchronous call that returns or throws without touching the world. *)
Definition sync {R A} (o : Outcome A) : M R A := fun w => (o, w).

(** [await p]: resume with the settlement of [p]. *)
Definition await {R A} (p : Promise A) : M R A := fun w => (p, w).

(** Calling an async function without awaiting it: its effects up to
    the settlement are recorded, the caller gets the promise and can
    not be interrupted by its rejection. *)
Definition start {R A} (m : M R A) : M R (Promise A) :=
  fun w => let (o, w') := m w in (Returned o, w').

(** [p.then(f)]. *)
Definition then_ {A B} (p : Promise A) (f : A -> B) : Promise B :=
  match p with
  | Returned a => Returned (f a)
  | Thrown e => Thrown e
  end.

(** A remote operation: the request is recorded, the remote state moves. *)
Definition remote_call {R A} (ev : Event) (op : R -> Outcome A * R) : M R A :=
  fun w =>
    let (o, r') := op (remote w) in
    (o, {| trace := trace w ++ [ev]; remote := r'; streams := streams w |}).

(** [new PassThrough()]: a fresh stream object. *)
Definition new_PassThrough {R} : M R Data :=
  fun w => (Returned (Stream (streams w)),
            {| trace := trace w; remote := remote w;
               streams := S (streams w) |}).

(** ** Promise.all over concurrently running callbacks

    [fileArray.map(async ...)] runs every callback up to its first
    [await] in array order; the callbacks then resume as their remote
    calls settle, in an order the adapter does not control.  That order
    is the [schedule]: entry [i] of the array is resumed at position
    [nth i schedule] among the entries after it (past the end: last). *)

Fixpoint insert_at {A} (k : nat) (x : A) (l : list A) : list A :=
  match k, l with
  | S k', y :: l' => y :: insert_at k' x l'
  | _, _ => x :: l
  end.

Fixpoint completion_order {A} (schedule : list nat) (pending : list A)
  : list A :=
  match pending with
  | [] => []
  | p :: pending' =>
      insert_at (hd 0%nat schedule) p (completion_order (tl schedule) pending')
  end.

(** Run [f] on every element in list order, threading the state. *)
Fixpoint map_in_order {St A B} (f : A -> St -> B * St) (l : list A)
  : St -> list B * St :=
  fun w =>
    match l with
    | [] => ([], w)
    | x :: l' =>
        let (b, w1) := f x w in
        let (bs, w2) := map_in_order f l' w1 in
        (b :: bs, w2)
    end.

(** [Promise.all]: rejects with the first rejection, else resolves with
    all the values. *)
Fixpoint Promise_all {A} (ps : list (Promise A)) : Promise (list A) :=
  match ps with
  | [] => Returned []
  | Thrown e :: _ => Thrown e
  | Returned a :: ps' => then_ (Promise_all ps') (cons a)
  end.

(** ** The provider service *)

(** [BytescaleOptions]; a field the host left out is [None]. *)
Record BytescaleOptions : Type := {
  apiKey : Js.value;
  accountId : Js.value;
  prefix : Js.value
}.

(** The instance fields; [logger_] writes to the trace of the world. *)
Record BytescaleFileProviderService : Type := {
  options_ : BytescaleOptions;
  uploadManager_ : Bytescale.UploadManager;
  fileApi_ : Bytescale.FileApi
}.

(** What [getUploadStream] hands back. *)
Record UploadStreamHandle : Type := {
  writeStream : Data;
  promise : Promise ProviderFileResultDTO.t;
  url : string;
  fileKey : string
}.

Definition MedusaError (t : ErrorType) (msg : string) : Error :=
  {| etype := t; message := msg |}.

(** [getUploadPath], a function of the stored options. *)
Definition getUploadPath (this : BytescaleFileProviderService) : string :=
  let folderPath := Js.or_else (prefix (options_ this)) "/uploads" in
  let folderPath :=
    if negb (Js.startsWith folderPath "/") then "/" ++ folderPath
    else folderPath in
  let folderPath :=
    if (1 <? String.length folderPath)%nat && Js.endsWith folderPath "/"
    then Js.slice folderPath 0 (-1)
    else folderPath in
  folderPath.

Section Provider.

Context {R : Type} (sdk : Bytescale.Sdk R).

Definition validateOptions (options : BytescaleOptions) : M R unit :=
  if negb (Js.truthy (apiKey options)) then
    throw (MedusaError INVALID_DATA
             "Bytescale provider requires 'apiKey' option.")
  else if negb (Js.truthy (accountId options)) then
    throw (MedusaError INVALID_DATA
             "Bytescale provider requires 'accountId' option.")
  else ret tt.

(** [new Bytescale.UploadManager(c)]: the SDK's constructor may throw;
    when it returns, a client holding [c] has been constructed. *)
Definition new_UploadManager (c : Bytescale.Configuration)
  : M R Bytescale.UploadManager :=
  sync (Bytescale.UploadManager_constructor sdk c) ;;;
  emit (NewUploadManager c) ;;; ret {| Bytescale.um_config := c |}.

(** [new Bytescale.FileApi(c)], likewise. *)
Definition new_FileApi (c : Bytescale.Configuration)
  : M R Bytescale.FileApi :=
  sync (Bytescale.FileApi_constructor sdk c) ;;;
  emit (NewFileApi c) ;;; ret {| Bytescale.fa_config := c |}.

Definition constructor (options : BytescaleOptions)
  : M R BytescaleFileProviderService :=
  validateOptions options ;;;
  um <- new_UploadManager {| Bytescale.apiKey := apiKey options |} ;;
  fa <- new_FileApi {| Bytescale.apiKey := apiKey options |} ;;
  ret {| options_ := options; uploadManager_ := um; fileApi_ := fa |}.

Definition uploadManager_upload (um : Bytescale.UploadManager)
  (p : Bytescale.UploadParams) : M R Bytescale.UploadResult :=
  remote_call (UploadCall p) (Bytescale.upload sdk um p).

Definition fileApi_deleteFile (fa : Bytescale.FileApi)
  (p : Bytescale.FileParams) : M R unit :=
  remote_call (DeleteFileCall p) (Bytescale.deleteFile sdk fa p).

Definition fileApi_downloadFile (fa : Bytescale.FileApi)
  (p : Bytescale.FileParams) : M R Bytescale.BinaryResult :=
  remote_call (DownloadFileCall p) (Bytescale.downloadFile sdk fa p).

Definition upload (this : BytescaleFileProviderService)
  (file : ProviderUploadFileDTO.t) : M R ProviderFileResultDTO.t :=
  try_catch
    (result <- uploadManager_upload (uploadManager_ this)
       {| Bytescale.data := ProviderUploadFileDTO.content file;
          Bytescale.mime := ProviderUploadFileDTO.mimeType file;
          Bytescale.originalFileName := ProviderUploadFileDTO.filename file;
          Bytescale.folderPath := getUploadPath this |} ;;
     ret {| ProviderFileResultDTO.url := Bytescale.fileUrl result;
            ProviderFileResultDTO.key := Bytescale.filePath_ result |})
    (fun error =>
       logger_error ("Bytescale upload failed for "
                     ++ ProviderUploadFileDTO.filename file ++ ": "
                     ++ message error) ;;;
       throw error).

(** The request [delete] sends for one entry. *)
Definition delete_params (this : BytescaleFileProviderService)
  (file : ProviderDeleteFileDTO.t) : Bytescale.FileParams :=
  {| Bytescale.accountId := accountId (options_ this);
     Bytescale.filePath := ProviderDeleteFileDTO.fileKey file |}.

Definition delete_warning (file : ProviderDeleteFileDTO.t) (error : Error)
  : string :=
  "Bytescale delete failed for " ++ ProviderDeleteFileDTO.fileKey file
  ++ ": " ++ message error.

(** The callback of [fileArray.map] up to its [await]: the remote call
    is issued, its promise is pending. *)
Definition delete_issue (this : BytescaleFileProviderService)
  (file : ProviderDeleteFileDTO.t)
  : World R -> (ProviderDeleteFileDTO.t * Promise unit) * World R :=
  fun w =>
    let (p, w') :=
      fileApi_deleteFile (fileApi_ this) (delete_params this file) w in
    ((file, p), w').

(** The callback from its [await] on: inside the [try], a rejection goes
    to the [catch], which warns and does not rethrow.  The outcome is
    the settlement of the promise the callback returned. *)
Definition delete_resume (pending : ProviderDeleteFileDTO.t * Promise unit)
  : M R unit :=
  try_catch
    (await (snd pending))
    (fun error => logger_warn (delete_warning (fst pending) error)).

Definition delete (this : BytescaleFileProviderService)
  (files : ProviderDeleteFileDTO.t + list ProviderDeleteFileDTO.t)
  (schedule : list nat) : M R unit :=
  let fileArray :=
    match files with
    | inr array => array
    | inl file => [file]
    end in
  fun w =>
    let (pending, w1) := map_in_order (delete_issue this) fileArray w in
    let (settled, w2) :=
      map_in_order delete_resume (completion_order schedule pending) w1 in
    (await (Promise_all settled) ;;; ret tt) w2.

Definition getPresignedDownloadUrl (this : BytescaleFileProviderService)
  (fileData : ProviderGetFileDTO.t) : M R string :=
  try_catch
    (sync (Bytescale.UrlBuilder_url sdk
             {| Bytescale.accountId := accountId (options_ this);
                Bytescale.filePath := ProviderGetFileDTO.fileKey fileData |}))
    (fun error =>
       logger_error ("Bytescale URL gen failed: " ++ message error) ;;;
       throw error).

Definition getUploadStream (this : BytescaleFileProviderService)
  (fileData : ProviderUploadStreamDTO.t) : M R UploadStreamHandle :=
  try_catch
    (pass <- new_PassThrough ;;
     let folderPath := getUploadPath this in
     let expectedKey :=
       folderPath ++ "/" ++ ProviderUploadStreamDTO.filename fileData in
     expectedUrl <- sync (Bytescale.UrlBuilder_url sdk
                            {| Bytescale.accountId := accountId (options_ this);
                               Bytescale.filePath := expectedKey |}) ;;
     uploadPromise <- start (uploadManager_upload (uploadManager_ this)
       {| Bytescale.data := pass;
          Bytescale.mime := ProviderUploadStreamDTO.mimeType fileData;
          Bytescale.originalFileName :=
            ProviderUploadStreamDTO.filename fileData;
          Bytescale.folderPath := folderPath |}) ;;
     ret {| writeStream := pass;
            promise := then_ uploadPromise (fun result =>
              {| ProviderFileResultDTO.url := Bytescale.fileUrl result;
                 ProviderFileResultDTO.key := Bytescale.filePath_ result |});
            url := expectedUrl;
            fileKey := expectedKey |})
    (fun error =>
       logger_error ("Bytescale upload stream failed: " ++ message error) ;;;
       throw error).

Definition getDownloadStream (this : BytescaleFileProviderService)
  (fileData : ProviderGetFileDTO.t) : M R Readable :=
  try_catch
    (response <- fileApi_downloadFile (fileApi_ this)
       {| Bytescale.accountId := accountId (options_ this);
          Bytescale.filePath := ProviderGetFileDTO.fileKey fileData |} ;;
     ret (Bytescale.body (Bytescale.raw response)))
    (fun error =>
       logger_error ("Bytescale download stream failed: " ++ message error) ;;;
       throw error).

Definition getAsBuffer (this : BytescaleFileProviderService)
  (fileData : ProviderGetFileDTO.t) : M R Buffer :=
  try_catch
    (response <- fileApi_downloadFile (fileApi_ this)
       {| Bytescale.accountId := accountId (options_ this);
          Bytescale.filePath := ProviderGetFileDTO.fileKey fileData |} ;;
     await (Bytescale.buffer (Bytescale.raw response)))
    (fun error =>
       logger_error ("Bytescale buffer download failed: " ++ message error) ;;;
       throw error).

End Provider.

(** ** Vocabulary of the statements *)

(** A service whose prefix is [p]; the other fields are arbitrary. *)
Definition configured_with (k a : Js.value) (um : Bytescale.UploadManager)
  (fa : Bytescale.FileApi) (p : Js.value) : BytescaleFileProviderService :=
  {| options_ := {| apiKey := k; accountId := a; prefix := p |};
     uploadManager_ := um; fileApi_ := fa |}.

(** An option the host left out or set to the empty string. *)
Definition missing_or_empty (v : Js.value) : Prop := v = None \/ v = Some "".

Definition non_empty (v : Js.value) : Prop := exists s, v = Some s /\ s <> "".

(** The world after [evs] happened and the remote moved to [r]. *)
Definition after {R} (w : World R) (evs : list Event) (r : R) : World R :=
  {| trace := trace w ++ evs; remote := r; streams := streams w |}.

(** The request [upload] sends for [file]. *)
Definition upload_request (this : BytescaleFileProviderService)
  (file : ProviderUploadFileDTO.t) : Bytescale.UploadParams :=
  {| Bytescale.data := ProviderUploadFileDTO.content file;
     Bytescale.mime := ProviderUploadFileDTO.mimeType file;
     Bytescale.originalFileName := ProviderUploadFileDTO.filename file;
     Bytescale.folderPath := getUploadPath this |}.

(** The request the download and URL operations send for a file key. *)
Definition file_request (this : BytescaleFileProviderService)
  (fileKey : string) : Bytescale.FileParams :=
  {| Bytescale.accountId := accountId (options_ this);
     Bytescale.filePath := fileKey |}.

(** The request [getUploadStream] sends for [fileData] in world [w]:
    its data is the pass-through stream created by the call. *)
Definition stream_upload_request {R} (this : BytescaleFileProviderService)
  (fileData : ProviderUploadStreamDTO.t) (w : World R)
  : Bytescale.UploadParams :=
  {| Bytescale.data := Stream (streams w);
     Bytescale.mime := ProviderUploadStreamDTO.mimeType fileData;
     Bytescale.originalFileName := ProviderUploadStreamDTO.filename fileData;
     Bytescale.folderPath := getUploadPath this |}.

(** The batch [delete] works on. *)
Definition batch_of
  (files : ProviderDeleteFileDTO.t + list ProviderDeleteFileDTO.t)
  : list ProviderDeleteFileDTO.t :=
  match files with
  | inl file => [file]
  | inr array => array
  end.

(** The warning lines owed to a batch whose entries got the given
    answers: one per entry whose remote call failed, none for the rest. *)
Definition warnings_for
  (answered : list (ProviderDeleteFileDTO.t * Outcome unit)) : list Event :=
  flat_map
    (fun entry =>
       match snd entry with
       | Thrown e =>
           [LoggerWarn ("Bytescale delete failed for "
                        ++ ProviderDeleteFileDTO.fileKey (fst entry) ++ ": "
                        ++ message e)]
       | Returned _ => []
       end)
    answered.

(** ** Test fixtures: mocked remote clients and a configured service *)
Module Fixture.

Definition config : Bytescale.Configuration :=
  {| Bytescale.apiKey := Some "secret_k" |}.

Definition options : BytescaleOptions :=
  {| apiKey := Some "secret_k"; accountId := Some "acct";
     prefix := Some "media/" |}.

(** The same options with the api key left out. *)
Definition options_without_key : BytescaleOptions :=
  {| apiKey := None; accountId := Some "acct"; prefix := Some "media/" |}.

Definition service : BytescaleFileProviderService :=
  {| options_ := options;
     uploadManager_ := {| Bytescale.um_config := config |};
     fileApi_ := {| Bytescale.fa_config := config |} |}.

(** A fresh world over the remote state [r]. *)
Definition world {R} (r : R) : World R :=
  {| trace := []; remote := r; streams := 0 |}.

(** A URL rule in the shape of the CDN's. *)
Definition cdn_url (p : Bytescale.FileParams) : Outcome string :=
  Returned ("https://upcdn.io/" ++ Js.or_else (Bytescale.accountId p) ""
            ++ "/raw" ++ Bytescale.filePath p).

Definition hello : Readable :=
  {| chunks := [[Byte.x68; Byte.x65]; []; [Byte.x6c; Byte.x6c; Byte.x6f]];
     failure := None |}.

(** A remote for account "acct" that stores uploads under the naming
    rule and serves [hello]; its state counts the calls. *)
Definition honest : Bytescale.Sdk nat :=
  {| Bytescale.UploadManager_constructor := fun _ => Returned tt;
     Bytescale.FileApi_constructor := fun _ => Returned tt;
     Bytescale.upload := fun _ p n =>
       let path :=
         Bytescale.folderPath p ++ "/" ++ Bytescale.originalFileName p in
       (Returned
          {| Bytescale.fileUrl := "https://upcdn.io/acct/raw" ++ path;
             Bytescale.filePath_ := path |},
        S n);
     Bytescale.deleteFile := fun _ _ n => (Returned tt, S n);
     Bytescale.downloadFile := fun _ _ n =>
       (Returned {| Bytescale.raw := {| Bytescale.body := hello |} |}, S n);
     Bytescale.UrlBuilder_url := cdn_url |}.

Definition outage : Error :=
  {| etype := External "BytescaleApiError"; message := "503" |}.

(** A remote on which every operation fails with [outage]. *)
Definition unreachable : Bytescale.Sdk nat :=
  {| Bytescale.UploadManager_constructor := fun _ => Returned tt;
     Bytescale.FileApi_constructor := fun _ => Returned tt;
     Bytescale.upload := fun _ _ n => (Thrown outage, S n);
     Bytescale.deleteFile := fun _ _ n => (Thrown outage, S n);
     Bytescale.downloadFile := fun _ _ n => (Thrown outage, S n);
     Bytescale.UrlBuilder_url := fun _ => Thrown outage |}.

(** A remote whose download response breaks while its body is read. *)
Definition truncating : Bytescale.Sdk nat :=
  {| Bytescale.UploadManager_constructor := fun _ => Returned tt;
     Bytescale.FileApi_constructor := fun _ => Returned tt;
     Bytescale.upload := fun _ _ n => (Thrown outage, S n);
     Bytescale.deleteFile := fun _ _ n => (Thrown outage, S n);
     Bytescale.downloadFile := fun _ _ n =>
       (Returned
          {| Bytescale.raw :=
               {| Bytescale.body :=
                    {| chunks := [[Byte.x68]]; failure := Some outage |} |} |},
        S n);
     Bytescale.UrlBuilder_url := cdn_url |}.

(** A remote that answers the successive [deleteFile] calls from a
    script (its state); past the script, deletions succeed. *)
Definition scripted : Bytescale.Sdk (list (Outcome unit)) :=
  {| Bytescale.UploadManager_constructor := fun _ => Returned tt;
     Bytescale.FileApi_constructor := fun _ => Returned tt;
     Bytescale.upload := fun _ _ script => (Thrown outage, script);
     Bytescale.deleteFile := fun _ _ script =>
       match script with
       | [] => (Returned tt, [])
       | answer :: script' => (answer, script')
       end;
     Bytescale.downloadFile := fun _ _ script => (Thrown outage, script);
     Bytescale.UrlBuilder_url := cdn_url |}.

Definition photo : ProviderUploadFileDTO.t :=
  {| ProviderUploadFileDTO.filename := "a.png";
     ProviderUploadFileDTO.mimeType := "image/png";
     ProviderUploadFileDTO.content := Bytes [Byte.x89; Byte.x50] |}.

Definition photo_stream : ProviderUploadStreamDTO.t :=
  {| ProviderUploadStreamDTO.filename := "a.png";
     ProviderUploadStreamDTO.mimeType := "image/png" |}.

Definition get (fileKey : string) (rest : list (string * string))
  : ProviderGetFileDTO.t :=
  {| ProviderGetFileDTO.fileKey := fileKey; ProviderGetFileDTO.rest := rest |}.

Definition del (fileKey : string) : ProviderDeleteFileDTO.t :=
  {| ProviderDeleteFileDTO.fileKey := fileKey |}.

Definition invalid_key : Error :=
  {| etype := External "Error"; message := "Invalid Bytescale API key." |}.

(** The honest remote behind an SDK whose class constructors refuse
    every api key that is not "secret_" followed by at least twenty
    code units. *)
Definition strict : Bytescale.Sdk nat :=
  let check (c : Bytescale.Configuration) : Outcome unit :=
    match Bytescale.apiKey c with
    | Some key =>
        if Js.startsWith key "secret_" && (27 <=? String.length key)%nat
        then Returned tt else Thrown invalid_key
    | None => Thrown invalid_key
    end in
  {| Bytescale.UploadManager_constructor := check;
     Bytescale.FileApi_constructor := check;
     Bytescale.upload := Bytescale.upload honest;
     Bytescale.deleteFile := Bytescale.deleteFile honest;
     Bytescale.downloadFile := Bytescale.downloadFile honest;
     Bytescale.UrlBuilder_url := cdn_url |}.

(** Options with an api key of the accepted shape. *)
Definition options_long_key : BytescaleOptions :=
  {| apiKey := Some "secret_G22nhXS4P3WgCaSLPXYZ12ab"; accountId := Some "acct";
     prefix := Some "media/" |}.

(** The options with the account id set to the empty string. *)
Definition options_without_account : BytescaleOptions :=
  {| apiKey := Some "secret_k"; accountId := Some ""; prefix := Some "media/" |}.

(** The service with prefix [p] in place of "media/". *)
Definition service_at (p : Js.value) : BytescaleFileProviderService :=
  configured_with (Some "secret_k") (Some "acct")
    {| Bytescale.um_config := config |} {| Bytescale.fa_config := config |} p.

End Fixture.

(** The client constructions recorded in a trace. *)
Definition constructions (t : list Event) : list Event :=
  filter is_client_construction t.

(** How a single-item operation started in [w] ended: it returned and
    wrote no log line, or it threw [e] and wrote exactly one error line,
    which ends with the message of [e]. *)
Definition quiet_or_reported {R A} (w : World R) (run : Outcome A * World R)
  : Prop :=
  match fst run with
  | Returned _ => logs (trace (snd run)) = logs (trace w)
  | Thrown e =>
      exists context,
        logs (trace (snd run)) =
          (logs (trace w) ++ [LoggerError (context ++ message e)])%list
  end.

(** * Properties *)

(** ** Folder-path normalization *)

Section UploadPath.

Variables (k a : Js.value).
Variables (um : Bytescale.UploadManager) (fa : Bytescale.FileApi).

Let configured := configured_with k a um fa.

(** C9: the listed prefixes normalize to the listed folder paths:
    absent gives "/uploads", "media" gives "/media", "/media/" gives
    "/media", "/" gives "/", and the empty string gives "/uploads". *)
Theorem getUploadPath_examples :
  getUploadPath (configured None) = "/uploads" /\
  getUploadPath (configured (Some "media")) = "/media" /\
  getUploadPath (configured (Some "/media/")) = "/media" /\
  getUploadPath (configured (Some "/")) = "/" /\
  getUploadPath (configured (Some "")) = "/uploads".
Proof. repeat split; reflexivity. Qed.

(** C3 (leading slash, no trailing slash unless the result is "/"): the
    second half fails on the code.  Only one trailing slash is removed,
    so the prefix "media//" normalizes to "/media/", which ends with "/"
    and is not "/". *)
Theorem getUploadPath_keeps_trailing_slash :
  getUploadPath (configured (Some "media//")) = "/media/" /\
  Js.startsWith (getUploadPath (configured (Some "media//"))) "/" = true /\
  Js.endsWith (getUploadPath (configured (Some "media//"))) "/" = true /\
  getUploadPath (configured (Some "media//")) <> "/".
Proof. repeat split; try reflexivity; discriminate. Qed.

End UploadPath.

Lemma startsWith_slash_cons (c : ascii) (s : string) :
  Js.startsWith (String c s) "/" = true <-> c = "/"%char.
Proof.
  unfold Js.startsWith. cbn [String.prefix].
  destruct (ascii_dec "/" c) as [E | E].
  - split; [intros _; symmetry; exact E | intros _; destruct s; reflexivity].
  - split; [discriminate | intro H; exfalso; apply E; symmetry; exact H].
Qed.

Lemma slice_drop_last_cons (c d : ascii) (s : string) :
  Js.slice (String c (String d s)) 0 (-1) =
  String c (Js.slice (String d s) 0 (-1)).
Proof.
  unfold Js.slice.
  cbn [String.length Z.ltb Z.compare].
  rewrite !Z.min_l by lia.
  replace (Z.to_nat (Z.max (Z.max (Z.of_nat (S (S (String.length s))) + -1) 0 - 0) 0))
    with (S (String.length s)) by lia.
  replace (Z.to_nat (Z.max (Z.max (Z.of_nat (S (String.length s)) + -1) 0 - 0) 0))
    with (String.length s) by lia.
  reflexivity.
Qed.

(** The first half of the output contract holds for every prefix. *)
Lemma getUploadPath_leading_slash (this : BytescaleFileProviderService) :
  Js.startsWith (getUploadPath this) "/" = true.
Proof.
  unfold getUploadPath.
  set (p0 := Js.or_else (prefix (options_ this)) "/uploads").
  set (p1 := if negb (Js.startsWith p0 "/") then "/" ++ p0 else p0).
  assert (H1 : Js.startsWith p1 "/" = true).
  { unfold p1. destruct (Js.startsWith p0 "/") eqn:E; cbn [negb]; [exact E|].
    change ("/" ++ p0) with (String "/"%char p0).
    apply startsWith_slash_cons. reflexivity. }
  destruct ((1 <? String.length p1)%nat && Js.endsWith p1 "/") eqn:E;
    [|exact H1].
  apply andb_prop in E. destruct E as [L _].
  apply Nat.ltb_lt in L.
  destruct p1 as [|c [|d s]]; cbn [String.length] in L; try lia.
  rewrite slice_drop_last_cons.
  apply startsWith_slash_cons. apply startsWith_slash_cons in H1. exact H1.
Qed.

Lemma endsWith_slash_cons (c d : ascii) (s : string) :
  Js.endsWith (String c (String d s)) "/" = Js.endsWith (String d s) "/".
Proof.
  unfold Js.endsWith. cbn [String.length].
  replace (S (S (String.length s)) - 1)%nat with (S (String.length s)) by lia.
  replace (S (String.length s) - 1)%nat with (String.length s) by lia.
  reflexivity.
Qed.

Lemma endsWith_slashes_cons (c d e : ascii) (s : string) :
  Js.endsWith (String c (String d (String e s))) "//" =
  Js.endsWith (String d (String e s)) "//".
Proof.
  unfold Js.endsWith. cbn [String.length].
  replace (S (S (S (String.length s))) - 2)%nat
    with (S (String.length s)) by lia.
  replace (S (S (String.length s)) - 2)%nat with (String.length s) by lia.
  reflexivity.
Qed.

Lemma endsWith_slash_single (c : ascii) :
  Js.endsWith (String c "") "/" = true -> c = "/"%char.
Proof.
  unfold Js.endsWith. cbn [String.length Nat.leb Nat.sub substring andb].
  intros H. apply String.eqb_eq in H. congruence.
Qed.

(** A string that still ends with "/" after its last code unit is
    dropped ended with "//". *)
Lemma endsWith_slash_twice (s : string) (c d : ascii) :
  Js.endsWith (String c (String d s)) "/" = true ->
  Js.endsWith (Js.slice (String c (String d s)) 0 (-1)) "/" = true ->
  Js.endsWith (String c (String d s)) "//" = true.
Proof.
  revert c d. induction s as [|e s IH]; intros c d H1 H2.
  - rewrite endsWith_slash_cons in H1. apply endsWith_slash_single in H1.
    apply endsWith_slash_single in H2. subst. reflexivity.
  - rewrite endsWith_slash_cons in H1.
    rewrite !slice_drop_last_cons, endsWith_slash_cons,
      <- slice_drop_last_cons in H2.
    rewrite endsWith_slashes_cons. apply IH; assumption.
Qed.

Lemma endsWith_slashes_after_slash (s : string) :
  Js.startsWith s "/" = false ->
  Js.endsWith (String "/" s) "//" = true ->
  Js.endsWith s "//" = true.
Proof.
  intros S0 H. destruct s as [|d [|e s]].
  - discriminate.
  - unfold Js.endsWith in H.
    cbn [String.length Nat.leb Nat.sub substring andb] in H.
    apply String.eqb_eq in H.
    injection H as ->. discriminate.
  - rewrite endsWith_slashes_cons in H. exact H.
Qed.

(** The second half of the output contract holds whenever the
    configured folder does not end with two slashes. *)
Lemma getUploadPath_no_trailing_slash (this : BytescaleFileProviderService) :
  Js.endsWith (Js.or_else (prefix (options_ this)) "/uploads") "//" = false ->
  Js.endsWith (getUploadPath this) "/" = true ->
  getUploadPath this = "/".
Proof.
  unfold getUploadPath.
  set (p0 := Js.or_else (prefix (options_ this)) "/uploads").
  set (p1 := if negb (Js.startsWith p0 "/") then "/" ++ p0 else p0).
  intros H0.
  assert (H1 : Js.endsWith p1 "//" = false).
  { unfold p1. destruct (Js.startsWith p0 "/") eqn:E; cbn [negb]; [exact H0|].
    change ("/" ++ p0) with (String "/"%char p0).
    destruct (Js.endsWith (String "/" p0) "//") eqn:F; [|reflexivity].
    rewrite (endsWith_slashes_after_slash p0 E F) in H0. discriminate. }
  clearbody p1. clear p0 H0.
  destruct ((1 <? String.length p1)%nat) eqn:L; cbn [andb].
  - destruct (Js.endsWith p1 "/") eqn:E; intros H.
    + apply Nat.ltb_lt in L.
      destruct p1 as [|c [|d s]]; cbn [String.length] in L; try lia.
      rewrite (endsWith_slash_twice s c d E H) in H1. discriminate.
    + congruence.
  - intros H. apply Nat.ltb_ge in L.
    destruct p1 as [|c [|d s]]; cbn [String.length] in L; try lia.
    + discriminate.
    + apply endsWith_slash_single in H. subst. reflexivity.
Qed.

(** Unfold the plumbing of [M] and normalize the trace. *)
Ltac run_world :=
  cbv [bind ret throw try_catch emit logger_error logger_warn sync await
       start remote_call new_PassThrough after];
  cbn [trace remote streams fst snd];
  rewrite <- ?app_assoc; cbn [app].

(** ** Construction *)

Lemma truthy_false_iff (v : Js.value) :
  Js.truthy v = false <-> missing_or_empty v.
Proof.
  unfold missing_or_empty. destruct v as [s|]; cbn [Js.truthy].
  - destruct (String.eqb_spec s ""); subst; cbn [negb]; split; intro H; auto.
    + discriminate.
    + destruct H as [H|H]; [discriminate | congruence].
  - split; auto.
Qed.

Lemma truthy_true_iff (v : Js.value) :
  Js.truthy v = true <-> non_empty v.
Proof.
  unfold non_empty. destruct v as [s|]; cbn [Js.truthy].
  - destruct (String.eqb_spec s ""); subst; cbn [negb]; split; intro H.
    + discriminate.
    + destruct H as (s & E & N). congruence.
    + exists s. auto.
    + reflexivity.
  - split; [discriminate | intros (s & E & _); discriminate].
Qed.

(** C4: when [apiKey] or [accountId] is missing or empty, construction
    throws an INVALID_DATA error and leaves the world untouched (no
    client object is constructed, no remote call is made); when both are
    non-empty, validation succeeds and construction proceeds to the two
    SDK clients: it ends as their constructors do, with the service when
    both accept the api key, and with the SDK's own error, no remote
    call made, when one refuses it. *)
Theorem constructor_validates_options {R : Type} (sdk : Bytescale.Sdk R)
  (options : BytescaleOptions) (w : World R) :
  (missing_or_empty (apiKey options) \/ missing_or_empty (accountId options) ->
   exists msg,
     constructor sdk options w = (Thrown (MedusaError INVALID_DATA msg), w)) /\
  (non_empty (apiKey options) -> non_empty (accountId options) ->
   validateOptions options w = (Returned tt, w) /\
   let c := {| Bytescale.apiKey := apiKey options |} in
   constructor sdk options w =
     match Bytescale.UploadManager_constructor sdk c with
     | Thrown e => (Thrown e, w)
     | Returned _ =>
         match Bytescale.FileApi_constructor sdk c with
         | Thrown e => (Thrown e, after w [NewUploadManager c] (remote w))
         | Returned _ =>
             (Returned {| options_ := options;
                          uploadManager_ := {| Bytescale.um_config := c |};
                          fileApi_ := {| Bytescale.fa_config := c |} |},
              after w [NewUploadManager c; NewFileApi c] (remote w))
         end
     end).
Proof.
  split.
  - intros H. unfold constructor, validateOptions, bind.
    destruct (Js.truthy (apiKey options)) eqn:K; cbn [negb].
    + destruct H as [H|H]; apply truthy_false_iff in H; [congruence|].
      rewrite H. cbn [negb]. eexists. reflexivity.
    + eexists. reflexivity.
  - intros K A. apply truthy_true_iff in K, A.
    unfold constructor, validateOptions. rewrite K, A. cbn [negb].
    split; [reflexivity|]. unfold new_UploadManager, new_FileApi.
    run_world.
    destruct (Bytescale.UploadManager_constructor sdk _) as [[]|e];
      [|reflexivity].
    destruct (Bytescale.FileApi_constructor sdk _) as [[]|e];
      run_world; reflexivity.
Qed.

(** ** Single-item operations *)

Section Operations.

Context {R : Type} (sdk : Bytescale.Sdk R).
Variable this : BytescaleFileProviderService.

(** C5: [upload] issues exactly one remote upload, carrying content,
    mimeType and filename unchanged and the normalized prefix as folder
    path; when that call returns [{fileUrl: X, filePath: Y}], [upload]
    returns exactly [{url: X, key: Y}]. *)
Theorem upload_round_trip (file : ProviderUploadFileDTO.t) (w : World R) :
  network_calls (trace (snd (upload sdk this file w))) =
    (network_calls (trace w) ++
     [UploadCall
        {| Bytescale.data := ProviderUploadFileDTO.content file;
           Bytescale.mime := ProviderUploadFileDTO.mimeType file;
           Bytescale.originalFileName := ProviderUploadFileDTO.filename file;
           Bytescale.folderPath := getUploadPath this |}])%list /\
  forall X Y r',
    Bytescale.upload sdk (uploadManager_ this) (upload_request this file)
      (remote w)
      = (Returned {| Bytescale.fileUrl := X; Bytescale.filePath_ := Y |}, r') ->
    upload sdk this file w =
      (Returned {| ProviderFileResultDTO.url := X;
                   ProviderFileResultDTO.key := Y |},
       after w [UploadCall (upload_request this file)] r').
Proof.
  unfold upload, uploadManager_upload, network_calls.
  fold (upload_request this file).
  run_world.
  destruct (Bytescale.upload sdk (uploadManager_ this)
              (upload_request this file) (remote w)) as [[res | e] r1] eqn:E;
    cbn [snd trace]; rewrite ?app_assoc, !filter_app; cbn [filter is_network_call];
    rewrite ?app_nil_r; split; try reflexivity.
  - intros X Y r' H. injection H as H1 H2. subst. reflexivity.
  - intros X Y r' H. discriminate.
Qed.

(** C6: an error raised by the remote client during [upload],
    [getDownloadStream], [getAsBuffer] (by the fetch or while the body is
    read into the buffer) or [getPresignedDownloadUrl] is logged with
    [logger.error] exactly once and the same error is then thrown to the
    caller; no remote error is swallowed. *)
Theorem remote_error_logged_once_and_rethrown
  (w : World R) (e : Error) (r' : R) :
  (forall file,
     Bytescale.upload sdk (uploadManager_ this) (upload_request this file)
       (remote w) = (Thrown e, r') ->
     upload sdk this file w =
       (Thrown e,
        after w [UploadCall (upload_request this file);
                 LoggerError ("Bytescale upload failed for "
                              ++ ProviderUploadFileDTO.filename file ++ ": "
                              ++ message e)] r')) /\
  (forall fileData,
     Bytescale.downloadFile sdk (fileApi_ this)
       (file_request this (ProviderGetFileDTO.fileKey fileData)) (remote w)
       = (Thrown e, r') ->
     getDownloadStream sdk this fileData w =
       (Thrown e,
        after w [DownloadFileCall
                   (file_request this (ProviderGetFileDTO.fileKey fileData));
                 LoggerError ("Bytescale download stream failed: "
                              ++ message e)] r') /\
     getAsBuffer sdk this fileData w =
       (Thrown e,
        after w [DownloadFileCall
                   (file_request this (ProviderGetFileDTO.fileKey fileData));
                 LoggerError ("Bytescale buffer download failed: "
                              ++ message e)] r')) /\
  (forall fileData response,
     Bytescale.downloadFile sdk (fileApi_ this)
       (file_request this (ProviderGetFileDTO.fileKey fileData)) (remote w)
       = (Returned response, r') ->
     Bytescale.buffer (Bytescale.raw response) = Thrown e ->
     getAsBuffer sdk this fileData w =
       (Thrown e,
        after w [DownloadFileCall
                   (file_request this (ProviderGetFileDTO.fileKey fileData));
                 LoggerError ("Bytescale buffer download failed: "
                              ++ message e)] r')) /\
  (forall fileData,
     Bytescale.UrlBuilder_url sdk
       (file_request this (ProviderGetFileDTO.fileKey fileData)) = Thrown e ->
     getPresignedDownloadUrl sdk this fileData w =
       (Thrown e,
        after w [LoggerError ("Bytescale URL gen failed: " ++ message e)]
          (remote w))).
Proof.
  split; [intros file H
         | split; [intros fileData H; split
                  | split; [intros fileData response H B | intros fileData H]]].
  - unfold upload, uploadManager_upload.
    fold (upload_request this file). run_world. rewrite H.
    run_world. reflexivity.
  - unfold getDownloadStream, fileApi_downloadFile.
    fold (file_request this (ProviderGetFileDTO.fileKey fileData)).
    run_world. rewrite H. run_world. reflexivity.
  - unfold getAsBuffer, fileApi_downloadFile.
    fold (file_request this (ProviderGetFileDTO.fileKey fileData)).
    run_world. rewrite H. run_world. reflexivity.
  - unfold getAsBuffer, fileApi_downloadFile.
    fold (file_request this (ProviderGetFileDTO.fileKey fileData)).
    run_world. rewrite H, B. run_world. reflexivity.
  - unfold getPresignedDownloadUrl.
    fold (file_request this (ProviderGetFileDTO.fileKey fileData)).
    run_world. rewrite H. reflexivity.
Qed.

(** C8: on the same remote fixture, [getAsBuffer] and
    [getDownloadStream] each issue exactly one remote fetch, for the
    same request; the buffer [getAsBuffer] returns is the concatenation
    of the chunks of the stream [getDownloadStream] returns, and it does
    return it whenever that stream ends cleanly. *)
Theorem getAsBuffer_is_concat_of_getDownloadStream
  (fileData : ProviderGetFileDTO.t) (w : World R) :
  let request :=
    {| Bytescale.accountId := accountId (options_ this);
       Bytescale.filePath := ProviderGetFileDTO.fileKey fileData |} in
  network_calls (trace (snd (getDownloadStream sdk this fileData w))) =
    (network_calls (trace w) ++ [DownloadFileCall request])%list /\
  network_calls (trace (snd (getAsBuffer sdk this fileData w))) =
    (network_calls (trace w) ++ [DownloadFileCall request])%list /\
  (forall b,
     fst (getAsBuffer sdk this fileData w) = Returned b ->
     exists s,
       fst (getDownloadStream sdk this fileData w) = Returned s /\
       b = concat (chunks s)) /\
  (forall s,
     fst (getDownloadStream sdk this fileData w) = Returned s ->
     failure s = None ->
     fst (getAsBuffer sdk this fileData w) = Returned (concat (chunks s))).
Proof.
  intros request.
  unfold getAsBuffer, getDownloadStream, fileApi_downloadFile, network_calls.
  fold request. run_world.
  destruct (Bytescale.downloadFile sdk (fileApi_ this) request (remote w))
    as [[response | e] r1] eqn:E.
  - unfold Bytescale.buffer.
    destruct (failure (Bytescale.body (Bytescale.raw response))) as [e|] eqn:F;
      cbn [fst snd trace]; rewrite ?app_assoc, !filter_app;
      cbn [filter is_network_call is_log]; rewrite ?app_nil_r;
      repeat split; intros x H; try discriminate.
    + injection H as <-. congruence.
    + injection H as <-. eexists. split; reflexivity.
    + injection H as <-. reflexivity.
  - cbn [fst snd trace]. rewrite ?app_assoc, !filter_app.
    cbn [filter is_network_call]. rewrite ?app_nil_r.
    repeat split; intros x H; discriminate.
Qed.

(** C2: when the remote upload answers the streaming request under the
    naming rule (its [filePath] is the normalized folder path, "/", the
    request's filename; its [fileUrl] is the URL built from the account
    id and that path), [getUploadStream] returns a handle whose [fileKey]
    and [url] are the [key] and [url] its completion promise resolves
    with. *)
Theorem getUploadStream_prediction_confirmed
  (fileData : ProviderUploadStreamDTO.t) (w : World R)
  (result : Bytescale.UploadResult) (r' : R) :
  Bytescale.upload sdk (uploadManager_ this)
    (stream_upload_request this fileData w) (remote w)
    = (Returned result, r') ->
  Bytescale.filePath_ result =
    getUploadPath this ++ "/" ++ ProviderUploadStreamDTO.filename fileData ->
  Bytescale.UrlBuilder_url sdk
    {| Bytescale.accountId := accountId (options_ this);
       Bytescale.filePath := Bytescale.filePath_ result |}
    = Returned (Bytescale.fileUrl result) ->
  exists handle w',
    getUploadStream sdk this fileData w = (Returned handle, w') /\
    promise handle =
      Returned {| ProviderFileResultDTO.url := url handle;
                  ProviderFileResultDTO.key := fileKey handle |}.
Proof.
  intros Hup Hpath Hurl.
  unfold getUploadStream, uploadManager_upload.
  rewrite Hpath in Hurl.
  run_world. fold (stream_upload_request this fileData w).
  rewrite Hurl, Hup.
  do 2 eexists. split; [reflexivity|].
  cbn [fileKey promise url then_]. rewrite Hpath. reflexivity.
Qed.

End Operations.

(** C7: [getPresignedDownloadUrl] is a function of the account id and
    the file key alone: two calls that agree on both end the same way
    (same URL, or same error), whatever else the requests carry and
    whatever the state of the world; and a call makes no remote call and
    leaves the remote state as it was. *)
Theorem getPresignedDownloadUrl_pure {R : Type} (sdk : Bytescale.Sdk R)
  (this1 this2 : BytescaleFileProviderService)
  (fileData1 fileData2 : ProviderGetFileDTO.t) (w1 w2 : World R) :
  accountId (options_ this1) = accountId (options_ this2) ->
  ProviderGetFileDTO.fileKey fileData1 = ProviderGetFileDTO.fileKey fileData2 ->
  fst (getPresignedDownloadUrl sdk this1 fileData1 w1) =
    fst (getPresignedDownloadUrl sdk this2 fileData2 w2) /\
  network_calls (trace (snd (getPresignedDownloadUrl sdk this1 fileData1 w1)))
    = network_calls (trace w1) /\
  remote (snd (getPresignedDownloadUrl sdk this1 fileData1 w1)) = remote w1.
Proof.
  intros Ha Hk. unfold getPresignedDownloadUrl, network_calls. run_world.
  rewrite Ha, Hk.
  destruct (Bytescale.UrlBuilder_url sdk _) as [u | e];
    cbn [fst snd trace remote]; repeat split.
  rewrite filter_app. cbn [filter is_network_call]. apply app_nil_r.
Qed.

(** ** Batch delete *)

Lemma after_nothing {R} (w : World R) : after w [] (remote w) = w.
Proof. destruct w. unfold after. cbn. rewrite app_nil_r. reflexivity. Qed.

Lemma insert_at_perm {A} (k : nat) (x : A) (l : list A) :
  Permutation (insert_at k x l) (x :: l).
Proof.
  revert k. induction l as [|y l IH]; intros [|k]; cbn; try reflexivity.
  rewrite IH. apply perm_swap.
Qed.

(** Every schedule resumes every pending callback exactly once. *)
Lemma completion_order_perm {A} (schedule : list nat) (pending : list A) :
  Permutation (completion_order schedule pending) pending.
Proof.
  revert schedule. induction pending as [|p pending IH]; intros schedule; cbn.
  - reflexivity.
  - rewrite insert_at_perm. apply perm_skip, IH.
Qed.

Lemma insert_at_middle {A} (x : A) (l1 l2 : list A) :
  insert_at (length l1) x (l1 ++ l2) = (l1 ++ x :: l2)%list.
Proof.
  induction l1 as [|y l1 IH]; cbn.
  - destruct l2; reflexivity.
  - rewrite IH. reflexivity.
Qed.

(** And every order of the pending callbacks is the completion order of
    some schedule. *)
Lemma completion_order_complete {A} (pending order : list A) :
  Permutation pending order ->
  exists schedule, completion_order schedule pending = order.
Proof.
  revert order. induction pending as [|p pending IH]; intros order H.
  - apply Permutation_nil in H. subst. exists []. reflexivity.
  - assert (Hin : In p order)
      by (apply (Permutation_in p H); left; reflexivity).
    apply in_split in Hin. destruct Hin as (l1 & l2 & ->).
    apply Permutation_cons_app_inv in H.
    destruct (IH _ H) as (schedule & E).
    exists (length l1 :: schedule). cbn [completion_order hd tl].
    rewrite E. apply insert_at_middle.
Qed.

Section Delete.

Context {R : Type} (sdk : Bytescale.Sdk R).
Variable this : BytescaleFileProviderService.

(** The synchronous part of the batch: one request per entry, in array
    order, whatever the remote answers. *)
Lemma issue_all (fileArray : list ProviderDeleteFileDTO.t) (w : World R) :
  let requests := map (delete_params this) fileArray in
  let answers :=
    map_in_order (Bytescale.deleteFile sdk (fileApi_ this)) requests
      (remote w) in
  map_in_order (delete_issue sdk this) fileArray w =
    (combine fileArray (fst answers),
     after w (map DeleteFileCall requests) (snd answers)).
Proof.
  revert w. induction fileArray as [|file fileArray IH]; intros w; cbn zeta.
  - cbn. rewrite after_nothing. reflexivity.
  - cbn [map map_in_order].
    unfold delete_issue at 1, fileApi_deleteFile, remote_call.
    destruct (Bytescale.deleteFile sdk (fileApi_ this)
                (delete_params this file) (remote w)) as [o r1] eqn:E.
    rewrite IH. cbn [remote].
    destruct (map_in_order (Bytescale.deleteFile sdk (fileApi_ this))
                (map (delete_params this) fileArray) r1) as [os r2].
    cbn [fst snd combine]. unfold after. cbn [trace streams].
    rewrite <- app_assoc. reflexivity.
Qed.

(** The resumed callbacks: each one resolves, and the failed ones warn. *)
Lemma resume_all
  (pending : list (ProviderDeleteFileDTO.t * Promise unit)) (w : World R) :
  map_in_order delete_resume pending w =
    (map (fun _ => Returned tt) pending,
     after w (warnings_for pending) (remote w)).
Proof.
  revert w. induction pending as [|[file [[]|e]] pending IH]; intros w.
  - cbn. rewrite after_nothing. reflexivity.
  - cbn [map_in_order map]. unfold delete_resume at 1. run_world.
    rewrite IH. reflexivity.
  - cbn [map_in_order map]. unfold delete_resume at 1. run_world.
    rewrite IH. unfold after, delete_warning, warnings_for.
    cbn [trace remote streams flat_map fst snd].
    rewrite <- app_assoc. reflexivity.
Qed.

Lemma Promise_all_resolved {A} (l : list A) :
  Promise_all (map (fun _ => Returned tt) l) = Returned (map (fun _ => tt) l).
Proof.
  induction l as [|x l IH]; cbn; [reflexivity|]. rewrite IH. reflexivity.
Qed.

(** C1: for every batch (a single request is a one-entry batch), every
    remote behaviour and every order in which the calls settle, [delete]
    resolves; it has issued exactly one [deleteFile] per entry, in array
    order, with the configured account id and the entry's file key,
    whatever the answers to the sibling calls; and it has logged one
    warning per failing entry and nothing else. *)
Theorem delete_is_best_effort
  (files : ProviderDeleteFileDTO.t + list ProviderDeleteFileDTO.t)
  (schedule : list nat) (w : World R) :
  let requests :=
    map (fun file =>
           {| Bytescale.accountId := accountId (options_ this);
              Bytescale.filePath := ProviderDeleteFileDTO.fileKey file |})
      (batch_of files) in
  let answers :=
    map_in_order (Bytescale.deleteFile sdk (fileApi_ this)) requests
      (remote w) in
  exists warned,
    delete sdk this files schedule w =
      (Returned tt,
       after w (map DeleteFileCall requests ++ warned) (snd answers)) /\
    Permutation warned (warnings_for (combine (batch_of files) (fst answers))).
Proof.
  intros requests answers. unfold delete.
  change (match files with inr array => array | inl file => [file] end)
    with (batch_of files).
  rewrite issue_all. fold requests. fold answers.
  rewrite resume_all, Promise_all_resolved. run_world.
  eexists. split.
  - reflexivity.
  - apply Permutation_flat_map, completion_order_perm.
Qed.

(** C10: on an empty array [delete] resolves and leaves the world as it
    was: no remote call, no log line. *)
Theorem delete_empty_batch (schedule : list nat) (w : World R) :
  delete sdk this (inr []) schedule w = (Returned tt, w) /\
  network_calls (trace (snd (delete sdk this (inr []) schedule w))) =
    network_calls (trace w) /\
  logs (trace (snd (delete sdk this (inr []) schedule w))) = logs (trace w).
Proof.
  assert (H : delete sdk this (inr []) schedule w = (Returned tt, w)).
  { unfold delete. cbn [map_in_order completion_order Promise_all].
    run_world. reflexivity. }
  rewrite H. cbn [snd]. repeat split.
Qed.

End Delete.

(** ** The statements at work on the fixtures *)

(** On an SDK that checks the shape of the api key: without a key
    validation refuses; with a well-formed key both clients are built;
    with the short key "secret_k" validation passes and the SDK's own
    constructor refuses. *)
Lemma constructor_validates_options_witness :
  (missing_or_empty (apiKey Fixture.options_without_key) \/
   missing_or_empty (accountId Fixture.options_without_key)) /\
  (exists msg,
     constructor Fixture.strict Fixture.options_without_key (Fixture.world 0) =
       (Thrown (MedusaError INVALID_DATA msg), Fixture.world 0)) /\
  non_empty (apiKey Fixture.options_long_key) /\
  non_empty (accountId Fixture.options_long_key) /\
  validateOptions Fixture.options_long_key (Fixture.world 0) =
    (Returned tt, Fixture.world 0) /\
  constructor Fixture.strict Fixture.options_long_key (Fixture.world 0) =
    (Returned
       {| options_ := Fixture.options_long_key;
          uploadManager_ :=
            {| Bytescale.um_config :=
                 {| Bytescale.apiKey := apiKey Fixture.options_long_key |} |};
          fileApi_ :=
            {| Bytescale.fa_config :=
                 {| Bytescale.apiKey := apiKey Fixture.options_long_key |} |}
       |},
     after (Fixture.world 0)
       [NewUploadManager
          {| Bytescale.apiKey := apiKey Fixture.options_long_key |};
        NewFileApi
          {| Bytescale.apiKey := apiKey Fixture.options_long_key |}] 0) /\
  non_empty (apiKey Fixture.options) /\
  non_empty (accountId Fixture.options) /\
  constructor Fixture.strict Fixture.options (Fixture.world 0) =
    (Thrown Fixture.invalid_key, Fixture.world 0).
Proof.
  assert (H : missing_or_empty (apiKey Fixture.options_without_key) \/
              missing_or_empty (accountId Fixture.options_without_key))
    by (left; left; reflexivity).
  assert (K : non_empty (apiKey Fixture.options_long_key))
    by (eexists; split; [reflexivity | discriminate]).
  assert (A : non_empty (accountId Fixture.options_long_key))
    by (exists "acct"; split; [reflexivity | discriminate]).
  assert (K' : non_empty (apiKey Fixture.options))
    by (exists "secret_k"; split; [reflexivity | discriminate]).
  assert (A' : non_empty (accountId Fixture.options))
    by (exists "acct"; split; [reflexivity | discriminate]).
  split; [exact H|]. split.
  { exact (proj1 (constructor_validates_options Fixture.strict
                    Fixture.options_without_key (Fixture.world 0)) H). }
  split; [exact K|]. split; [exact A|].
  split.
  { exact (proj1 (proj2 (constructor_validates_options Fixture.strict
                           Fixture.options_long_key (Fixture.world 0)) K A)). }
  split.
  { exact (proj2 (proj2 (constructor_validates_options Fixture.strict
                           Fixture.options_long_key (Fixture.world 0)) K A)). }
  split; [exact K'|]. split; [exact A'|].
  exact (proj2 (proj2 (constructor_validates_options Fixture.strict
                         Fixture.options (Fixture.world 0)) K' A')).
Defined.

(** The honest remote stores the photo under "/media" and [upload]
    hands its answer back. *)
Lemma upload_round_trip_witness :
  Bytescale.upload Fixture.honest (uploadManager_ Fixture.service)
    (upload_request Fixture.service Fixture.photo) 0 =
    (Returned {| Bytescale.fileUrl := "https://upcdn.io/acct/raw/media/a.png";
                 Bytescale.filePath_ := "/media/a.png" |}, 1) /\
  upload Fixture.honest Fixture.service Fixture.photo (Fixture.world 0) =
    (Returned
       {| ProviderFileResultDTO.url := "https://upcdn.io/acct/raw/media/a.png";
          ProviderFileResultDTO.key := "/media/a.png" |},
     after (Fixture.world 0)
       [UploadCall (upload_request Fixture.service Fixture.photo)] 1).
Proof.
  assert (H : Bytescale.upload Fixture.honest (uploadManager_ Fixture.service)
                (upload_request Fixture.service Fixture.photo) 0 =
              (Returned
                 {| Bytescale.fileUrl := "https://upcdn.io/acct/raw/media/a.png";
                    Bytescale.filePath_ := "/media/a.png" |}, 1))
    by reflexivity.
  split; [exact H|].
  exact (proj2 (upload_round_trip Fixture.honest Fixture.service
                  Fixture.photo (Fixture.world 0)) _ _ _ H).
Defined.

(** On the honest remote the predicted key and URL are the confirmed
    ones. *)
Lemma getUploadStream_prediction_confirmed_witness :
  Bytescale.upload Fixture.honest (uploadManager_ Fixture.service)
    (stream_upload_request Fixture.service Fixture.photo_stream
       (Fixture.world 0)) 0 =
    (Returned {| Bytescale.fileUrl := "https://upcdn.io/acct/raw/media/a.png";
                 Bytescale.filePath_ := "/media/a.png" |}, 1) /\
  exists handle w',
    getUploadStream Fixture.honest Fixture.service Fixture.photo_stream
      (Fixture.world 0) = (Returned handle, w') /\
    promise handle =
      Returned {| ProviderFileResultDTO.url := url handle;
                  ProviderFileResultDTO.key := fileKey handle |}.
Proof.
  assert (H : Bytescale.upload Fixture.honest (uploadManager_ Fixture.service)
                (stream_upload_request Fixture.service Fixture.photo_stream
                   (Fixture.world 0)) 0 =
              (Returned
                 {| Bytescale.fileUrl := "https://upcdn.io/acct/raw/media/a.png";
                    Bytescale.filePath_ := "/media/a.png" |}, 1))
    by reflexivity.
  split; [exact H|].
  exact (getUploadStream_prediction_confirmed Fixture.honest Fixture.service
           Fixture.photo_stream (Fixture.world 0) _ _ H eq_refl eq_refl).
Defined.

(** Two services of the same account, two requests for the same key,
    two different worlds: one URL. *)
Lemma getPresignedDownloadUrl_pure_witness :
  fst (getPresignedDownloadUrl Fixture.honest Fixture.service
         (Fixture.get "/media/a.png" []) (Fixture.world 0)) =
  fst (getPresignedDownloadUrl Fixture.honest
         (configured_with None (Some "acct") (uploadManager_ Fixture.service)
            (fileApi_ Fixture.service) None)
         (Fixture.get "/media/a.png" [("filename", "b.png")])
         (after (Fixture.world 7) [LoggerWarn "earlier"] 9)) /\
  fst (getPresignedDownloadUrl Fixture.honest Fixture.service
         (Fixture.get "/media/a.png" []) (Fixture.world 0)) =
  Returned "https://upcdn.io/acct/raw/media/a.png".
Proof.
  split; [|reflexivity].
  exact (proj1 (getPresignedDownloadUrl_pure Fixture.honest Fixture.service
                  (configured_with None (Some "acct")
                     (uploadManager_ Fixture.service)
                     (fileApi_ Fixture.service) None)
                  (Fixture.get "/media/a.png" [])
                  (Fixture.get "/media/a.png" [("filename", "b.png")])
                  (Fixture.world 0)
                  (after (Fixture.world 7) [LoggerWarn "earlier"] 9)
                  eq_refl eq_refl)).
Defined.

(** The honest remote serves three chunks; the buffer is their
    concatenation. *)
Lemma getAsBuffer_is_concat_of_getDownloadStream_witness :
  fst (getDownloadStream Fixture.honest Fixture.service
         (Fixture.get "/media/a.png" []) (Fixture.world 0)) =
    Returned Fixture.hello /\
  failure Fixture.hello = None /\
  fst (getAsBuffer Fixture.honest Fixture.service
         (Fixture.get "/media/a.png" []) (Fixture.world 0)) =
    Returned [Byte.x68; Byte.x65; Byte.x6c; Byte.x6c; Byte.x6f].
Proof.
  split; [reflexivity|]. split; [reflexivity|].
  exact (proj2 (proj2 (proj2
           (getAsBuffer_is_concat_of_getDownloadStream Fixture.honest
              Fixture.service (Fixture.get "/media/a.png" [])
              (Fixture.world 0))))
           Fixture.hello eq_refl eq_refl).
Defined.

(** An outage, and a body that breaks while it is read, reach the
    caller after one error line. *)
Lemma remote_error_logged_once_and_rethrown_witness :
  upload Fixture.unreachable Fixture.service Fixture.photo (Fixture.world 0) =
    (Thrown Fixture.outage,
     after (Fixture.world 0)
       [UploadCall (upload_request Fixture.service Fixture.photo);
        LoggerError "Bytescale upload failed for a.png: 503"] 1) /\
  getDownloadStream Fixture.unreachable Fixture.service
    (Fixture.get "/media/a.png" []) (Fixture.world 0) =
    (Thrown Fixture.outage,
     after (Fixture.world 0)
       [DownloadFileCall (file_request Fixture.service "/media/a.png");
        LoggerError "Bytescale download stream failed: 503"] 1) /\
  getAsBuffer Fixture.truncating Fixture.service
    (Fixture.get "/media/a.png" []) (Fixture.world 0) =
    (Thrown Fixture.outage,
     after (Fixture.world 0)
       [DownloadFileCall (file_request Fixture.service "/media/a.png");
        LoggerError "Bytescale buffer download failed: 503"] 1) /\
  getPresignedDownloadUrl Fixture.unreachable Fixture.service
    (Fixture.get "/media/a.png" []) (Fixture.world 0) =
    (Thrown Fixture.outage,
     after (Fixture.world 0) [LoggerError "Bytescale URL gen failed: 503"] 0).
Proof.
  pose proof (remote_error_logged_once_and_rethrown Fixture.unreachable
                Fixture.service (Fixture.world 0) Fixture.outage 1)
    as (Hupload & Hdownload & _ & Hurl).
  pose proof (remote_error_logged_once_and_rethrown Fixture.truncating
                Fixture.service (Fixture.world 0) Fixture.outage 1)
    as (_ & _ & Hbuffer & _).
  split; [exact (Hupload Fixture.photo eq_refl)|].
  split; [exact (proj1 (Hdownload (Fixture.get "/media/a.png" []) eq_refl))|].
  split; [exact (Hbuffer (Fixture.get "/media/a.png" []) _ eq_refl eq_refl)|].
  exact (Hurl (Fixture.get "/media/a.png" []) eq_refl).
Defined.

(** Every pattern of per-item answers is the behaviour of some remote:
    the scripted one, started on the pattern. *)
Lemma scripted_answers (fa : Bytescale.FileApi)
  (requests : list Bytescale.FileParams) (pattern : list (Outcome unit)) :
  length pattern = length requests ->
  map_in_order (Bytescale.deleteFile Fixture.scripted fa) requests pattern =
    (pattern, []).
Proof.
  revert pattern.
  induction requests as [|p requests IH]; intros [|answer pattern] H;
    try discriminate; [reflexivity|].
  cbn [map_in_order Fixture.scripted Bytescale.deleteFile].
  cbn [length] in H. injection H as H.
  change (Bytescale.deleteFile Fixture.scripted fa)
    with (fun (_ : Bytescale.FileParams) (script : list (Outcome unit)) =>
            match script with
            | [] => (Returned tt, [])
            | answer :: script' => (answer, script')
            end) in IH.
  rewrite (IH pattern H). reflexivity.
Qed.

(** A batch of three whose first and last deletions fail, the last
    failure being reported first. *)
Example delete_two_of_three_fail :
  delete Fixture.scripted Fixture.service
    (inr [Fixture.del "/media/a"; Fixture.del "/media/b"; Fixture.del "/media/c"])
    [2; 0; 0]
    (Fixture.world
       [Thrown Fixture.outage; Returned tt; Thrown Fixture.outage]) =
  (Returned tt,
   after (Fixture.world [])
     [DeleteFileCall (file_request Fixture.service "/media/a");
      DeleteFileCall (file_request Fixture.service "/media/b");
      DeleteFileCall (file_request Fixture.service "/media/c");
      LoggerWarn "Bytescale delete failed for /media/c: 503";
      LoggerWarn "Bytescale delete failed for /media/a: 503"] []).
Proof. reflexivity. Qed.

(** * Further properties of the provider *)

(** ** More on folder-path normalization *)

Lemma or_else_nonempty (s d : string) :
  s <> "" -> Js.or_else (Some s) d = s.
Proof.
  intros H. unfold Js.or_else, Js.truthy.
  destruct (String.eqb_spec s ""); [contradiction | reflexivity].
Qed.

Lemma startsWith_nonempty (s : string) :
  Js.startsWith s "/" = true -> s <> "".
Proof. intros H ->. discriminate. Qed.

Lemma endsWith_append_slash (t : string) : Js.endsWith (t ++ "/") "/" = true.
Proof.
  induction t as [|c t IH]; [reflexivity|].
  destruct t as [|d t]; [reflexivity|].
  change (String c (String d t) ++ "/") with (String c (String d (t ++ "/"))).
  rewrite endsWith_slash_cons. exact IH.
Qed.

Lemma slice_append_slash (t : string) : Js.slice (t ++ "/") 0 (-1) = t.
Proof.
  induction t as [|c t IH]; [reflexivity|].
  destruct t as [|d t]; [reflexivity|].
  change (String c (String d t) ++ "/") with (String c (String d (t ++ "/"))).
  rewrite slice_drop_last_cons. f_equal. exact IH.
Qed.

Lemma length_append_slash (t : string) :
  t <> "" -> (1 <? String.length (t ++ "/"))%nat = true.
Proof.
  intros H. destruct t as [|c t]; [contradiction|].
  destruct t; reflexivity.
Qed.

(** The configured folder with the default applied does not end with two
    slashes when the prefix does not. *)
Lemma folder_without_double_slash (this : BytescaleFileProviderService) :
  (forall s, prefix (options_ this) = Some s -> Js.endsWith s "//" = false) ->
  Js.endsWith (Js.or_else (prefix (options_ this)) "/uploads") "//" = false.
Proof.
  intros H. destruct (prefix (options_ this)) as [s|]; [|reflexivity].
  unfold Js.or_else, Js.truthy.
  destruct (String.eqb_spec s ""); cbn [negb]; [reflexivity|].
  apply H. reflexivity.
Qed.

(** X1: when the configured prefix does not end with two slashes, the
    folder path starts with "/" and does not end with "/" unless it is
    exactly "/". *)
Theorem getUploadPath_output_contract (this : BytescaleFileProviderService) :
  (forall s, prefix (options_ this) = Some s -> Js.endsWith s "//" = false) ->
  Js.startsWith (getUploadPath this) "/" = true /\
  (Js.endsWith (getUploadPath this) "/" = true -> getUploadPath this = "/").
Proof.
  intros H. split.
  - apply getUploadPath_leading_slash.
  - apply getUploadPath_no_trailing_slash, folder_without_double_slash, H.
Qed.

(** X2: under the same condition normalization is idempotent: a service
    configured with an already normalized folder path normalizes it to
    itself. *)
Theorem getUploadPath_idempotent (this this' : BytescaleFileProviderService) :
  (forall s, prefix (options_ this) = Some s -> Js.endsWith s "//" = false) ->
  prefix (options_ this') = Some (getUploadPath this) ->
  getUploadPath this' = getUploadPath this.
Proof.
  intros H E.
  pose proof (getUploadPath_leading_slash this) as L.
  pose proof (getUploadPath_no_trailing_slash this
                (folder_without_double_slash this H)) as T.
  unfold getUploadPath at 1. rewrite E.
  set (r := getUploadPath this) in *.
  rewrite (or_else_nonempty r "/uploads" (startsWith_nonempty r L)).
  rewrite L. cbn [negb].
  destruct (Js.endsWith r "/") eqn:F; [|rewrite andb_false_r; reflexivity].
  rewrite (T eq_refl). reflexivity.
Qed.

(** X3: a leading slash in the prefix makes no difference. *)
Theorem getUploadPath_leading_slash_optional
  (this this' : BytescaleFileProviderService) (s : string) :
  s <> "" ->
  Js.startsWith s "/" = false ->
  prefix (options_ this) = Some s ->
  prefix (options_ this') = Some ("/" ++ s) ->
  getUploadPath this' = getUploadPath this.
Proof.
  intros N S0 E E'. unfold getUploadPath. rewrite E, E'.
  rewrite (or_else_nonempty s "/uploads" N).
  rewrite (or_else_nonempty ("/" ++ s) "/uploads") by discriminate.
  rewrite S0. cbn [negb].
  change ("/" ++ s) with (String "/"%char s).
  rewrite (proj2 (startsWith_slash_cons "/"%char s) eq_refl). reflexivity.
Qed.

(** X4: one trailing slash in the prefix makes no difference. *)
Theorem getUploadPath_trailing_slash_optional
  (this this' : BytescaleFileProviderService) (s : string) :
  s <> "" ->
  Js.endsWith s "/" = false ->
  prefix (options_ this) = Some s ->
  prefix (options_ this') = Some (s ++ "/") ->
  getUploadPath this' = getUploadPath this.
Proof.
  intros N S0 E E'. unfold getUploadPath. rewrite E, E'.
  rewrite (or_else_nonempty s "/uploads" N).
  rewrite (or_else_nonempty (s ++ "/") "/uploads")
    by (destruct s; [contradiction | discriminate]).
  assert (P : Js.startsWith (s ++ "/") "/" = Js.startsWith s "/")
    by (destruct s as [|c s]; [contradiction|];
        unfold Js.startsWith; cbn [String.prefix append];
        destruct (ascii_dec "/" c); [destruct s|]; reflexivity).
  rewrite P.
  set (lead := if negb (Js.startsWith s "/") then "/" ++ s else s).
  assert (A : (if negb (Js.startsWith s "/") then "/" ++ s ++ "/" else s ++ "/")
              = lead ++ "/")
    by (unfold lead; destruct (Js.startsWith s "/"); reflexivity).
  rewrite A.
  assert (NL : lead <> "")
    by (unfold lead; destruct (Js.startsWith s "/"); cbn [negb];
        [exact N | discriminate]).
  assert (EL : Js.endsWith lead "/" = false).
  { unfold lead. destruct (Js.startsWith s "/"); cbn [negb]; [exact S0|].
    destruct s as [|c s]; [contradiction|].
    change ("/" ++ String c s) with (String "/"%char (String c s)).
    rewrite endsWith_slash_cons. exact S0. }
  rewrite (length_append_slash lead NL), endsWith_append_slash.
  cbn [andb]. rewrite slice_append_slash, EL, andb_false_r. reflexivity.
Qed.

(** ** More on construction *)

(** X5: the options are checked in order, and the error names the first
    one that is missing or empty: [apiKey] whatever the account id is,
    [accountId] only when the api key is present.  Nothing has happened
    in the world when the error is thrown. *)
Theorem constructor_reports_first_missing_option {R : Type}
  (sdk : Bytescale.Sdk R) (options : BytescaleOptions) (w : World R) :
  (missing_or_empty (apiKey options) ->
   constructor sdk options w =
     (Thrown (MedusaError INVALID_DATA
                "Bytescale provider requires 'apiKey' option."), w)) /\
  (non_empty (apiKey options) ->
   missing_or_empty (accountId options) ->
   constructor sdk options w =
     (Thrown (MedusaError INVALID_DATA
                "Bytescale provider requires 'accountId' option."), w)).
Proof.
  split.
  - intros K. apply truthy_false_iff in K.
    unfold constructor, validateOptions, bind. rewrite K. reflexivity.
  - intros K A. apply truthy_true_iff in K. apply truthy_false_iff in A.
    unfold constructor, validateOptions, bind. rewrite K, A. reflexivity.
Qed.

(** X6: a service only comes out of the constructor with both
    credentials non-empty; it stores the options as given, its two
    clients were built, upload manager first, from the api key, and
    every file request it sends carries a non-empty account id. *)
Theorem constructor_success_inversion {R : Type} (sdk : Bytescale.Sdk R)
  (options : BytescaleOptions) (w w' : World R)
  (this : BytescaleFileProviderService) :
  constructor sdk options w = (Returned this, w') ->
  non_empty (apiKey options) /\
  non_empty (accountId options) /\
  this =
    {| options_ := options;
       uploadManager_ :=
         {| Bytescale.um_config := {| Bytescale.apiKey := apiKey options |} |};
       fileApi_ :=
         {| Bytescale.fa_config := {| Bytescale.apiKey := apiKey options |} |}
    |} /\
  w' = after w [NewUploadManager {| Bytescale.apiKey := apiKey options |};
                NewFileApi {| Bytescale.apiKey := apiKey options |}]
         (remote w) /\
  forall fileKey, exists account,
    account <> "" /\
    file_request this fileKey =
      {| Bytescale.accountId := Some account; Bytescale.filePath := fileKey |}.
Proof.
  intros H.
  unfold constructor, validateOptions, new_UploadManager, new_FileApi in H.
  destruct (Js.truthy (apiKey options)) eqn:K; cbn [negb] in H;
    [destruct (Js.truthy (accountId options)) eqn:A; cbn [negb] in H|];
    cbv [bind ret throw emit sync] in H; cbn [trace remote streams] in H;
    try discriminate.
  destruct (Bytescale.UploadManager_constructor sdk _) as [[]|e];
    [|discriminate].
  destruct (Bytescale.FileApi_constructor sdk _) as [[]|e];
    [|discriminate].
  injection H as <- <-.
  apply truthy_true_iff in K, A.
  repeat split; try assumption.
  - unfold after. rewrite <- app_assoc. reflexivity.
  - intros fileKey. destruct A as (account & EA & NA).
    exists account. split; [exact NA|].
    unfold file_request. cbn [options_]. rewrite EA. reflexivity.
Qed.

(** ** More on the single-item operations *)

Section MoreOperations.

Context {R : Type} (sdk : Bytescale.Sdk R).
Variable this : BytescaleFileProviderService.

(** X7: whenever [getUploadStream] returns a handle, exactly one remote
    upload has been started; the stream it reads from is the very
    stream handed to the caller, and its mime type, file name and folder
    are those of the request.  The handle's key is folder, "/",
    filename, its URL is built from the account id and that key, and its
    promise settles as the remote upload does, whatever the remote
    answers. *)
Theorem getUploadStream_handle
  (fileData : ProviderUploadStreamDTO.t) (w w' : World R)
  (handle : UploadStreamHandle) :
  getUploadStream sdk this fileData w = (Returned handle, w') ->
  let request :=
    {| Bytescale.data := writeStream handle;
       Bytescale.mime := ProviderUploadStreamDTO.mimeType fileData;
       Bytescale.originalFileName := ProviderUploadStreamDTO.filename fileData;
       Bytescale.folderPath := getUploadPath this |} in
  let answer :=
    Bytescale.upload sdk (uploadManager_ this) request (remote w) in
  trace w' = (trace w ++ [UploadCall request])%list /\
  remote w' = snd answer /\
  fileKey handle =
    getUploadPath this ++ "/" ++ ProviderUploadStreamDTO.filename fileData /\
  Bytescale.UrlBuilder_url sdk
    {| Bytescale.accountId := accountId (options_ this);
       Bytescale.filePath := fileKey handle |} = Returned (url handle) /\
  promise handle =
    then_ (fst answer)
      (fun result =>
         {| ProviderFileResultDTO.url := Bytescale.fileUrl result;
            ProviderFileResultDTO.key := Bytescale.filePath_ result |}).
Proof.
  unfold getUploadStream, uploadManager_upload. run_world.
  destruct (Bytescale.UrlBuilder_url sdk _) as [u | e] eqn:U;
    [|discriminate].
  destruct (Bytescale.upload sdk (uploadManager_ this) _ (remote w))
    as [o r1] eqn:E.
  intros H. injection H as <- <-.
  cbn [writeStream fileKey url promise trace remote].
  rewrite E. cbn [fst snd]. repeat split. exact U.
Qed.

(** X8: a rejection of the remote upload started by [getUploadStream]
    stays inside the promise: the call still returns the handle, with
    the predicted key and URL, the promise rejects with the remote's
    error, and no log line is written. *)
Theorem getUploadStream_rejection_stays_in_promise
  (fileData : ProviderUploadStreamDTO.t) (w : World R)
  (u : string) (e : Error) (r' : R) :
  Bytescale.UrlBuilder_url sdk
    {| Bytescale.accountId := accountId (options_ this);
       Bytescale.filePath :=
         getUploadPath this ++ "/"
         ++ ProviderUploadStreamDTO.filename fileData |} = Returned u ->
  Bytescale.upload sdk (uploadManager_ this)
    (stream_upload_request this fileData w) (remote w) = (Thrown e, r') ->
  getUploadStream sdk this fileData w =
    (Returned
       {| writeStream := Stream (streams w);
          promise := Thrown e;
          url := u;
          fileKey :=
            getUploadPath this ++ "/"
            ++ ProviderUploadStreamDTO.filename fileData |},
     {| trace :=
          trace w ++ [UploadCall (stream_upload_request this fileData w)];
        remote := r';
        streams := S (streams w) |}).
Proof.
  intros U E. unfold getUploadStream, uploadManager_upload. run_world.
  fold (stream_upload_request this fileData w). rewrite U, E. reflexivity.
Qed.

(** X9: when building the predicted URL throws, [getUploadStream]
    throws that error after one error line, and no remote upload is
    started. *)
Theorem getUploadStream_url_failure
  (fileData : ProviderUploadStreamDTO.t) (w : World R) (e : Error) :
  Bytescale.UrlBuilder_url sdk
    {| Bytescale.accountId := accountId (options_ this);
       Bytescale.filePath :=
         getUploadPath this ++ "/"
         ++ ProviderUploadStreamDTO.filename fileData |} = Thrown e ->
  getUploadStream sdk this fileData w =
    (Thrown e,
     {| trace :=
          trace w ++ [LoggerError ("Bytescale upload stream failed: "
                                   ++ message e)];
        remote := remote w;
        streams := S (streams w) |}) /\
  network_calls (trace (snd (getUploadStream sdk this fileData w))) =
    network_calls (trace w).
Proof.
  intros U.
  assert (H : getUploadStream sdk this fileData w =
    (Thrown e,
     {| trace :=
          trace w ++ [LoggerError ("Bytescale upload stream failed: "
                                   ++ message e)];
        remote := remote w;
        streams := S (streams w) |})).
  { unfold getUploadStream, uploadManager_upload. run_world.
    rewrite U. reflexivity. }
  rewrite H. split; [reflexivity|].
  cbn [snd trace]. unfold network_calls. rewrite filter_app.
  cbn [filter is_network_call]. apply app_nil_r.
Qed.

End MoreOperations.

Lemma string_append_assoc (a b c : string) : (a ++ b) ++ c = a ++ b ++ c.
Proof. induction a as [|x a IH]; cbn; [reflexivity | rewrite IH; reflexivity]. Qed.

(** Normalize what a filter keeps of a trace that ends with known events. *)
Ltac filter_trace :=
  unfold logs, network_calls, constructions;
  cbn [fst snd trace remote streams];
  rewrite ?filter_app;
  cbn [filter is_log is_network_call is_client_construction];
  rewrite ?app_nil_r; rewrite <- ?app_assoc; cbn [app].

Section Outcomes.

Context {R : Type} (sdk : Bytescale.Sdk R).
Variable this : BytescaleFileProviderService.

(** X10: every run of [upload], [getDownloadStream], [getAsBuffer],
    [getPresignedDownloadUrl] and [getUploadStream] either returns
    without writing a log line, or throws after writing exactly one
    error line that ends with the message of the error thrown. *)
Theorem operations_quiet_or_reported (w : World R) :
  (forall file, quiet_or_reported w (upload sdk this file w)) /\
  (forall fileData, quiet_or_reported w (getDownloadStream sdk this fileData w)) /\
  (forall fileData, quiet_or_reported w (getAsBuffer sdk this fileData w)) /\
  (forall fileData,
     quiet_or_reported w (getPresignedDownloadUrl sdk this fileData w)) /\
  (forall fileData, quiet_or_reported w (getUploadStream sdk this fileData w)).
Proof.
  unfold quiet_or_reported. repeat split.
  - intros file. unfold upload, uploadManager_upload. run_world.
    destruct (Bytescale.upload sdk _ _ _) as [[result | e] r1];
      filter_trace; [reflexivity|].
    exists ("Bytescale upload failed for "
            ++ ProviderUploadFileDTO.filename file ++ ": ").
    cbn [append]. rewrite string_append_assoc. reflexivity.
  - intros fileData. unfold getDownloadStream, fileApi_downloadFile. run_world.
    destruct (Bytescale.downloadFile sdk _ _ _) as [[response | e] r1];
      filter_trace; [reflexivity|].
    exists "Bytescale download stream failed: ". reflexivity.
  - intros fileData. unfold getAsBuffer, fileApi_downloadFile. run_world.
    destruct (Bytescale.downloadFile sdk _ _ _) as [[response | e] r1];
      [destruct (Bytescale.buffer (Bytescale.raw response)) as [b | e]|];
      filter_trace; try reflexivity;
      exists "Bytescale buffer download failed: "; reflexivity.
  - intros fileData. unfold getPresignedDownloadUrl. run_world.
    destruct (Bytescale.UrlBuilder_url sdk _) as [u | e];
      filter_trace; [reflexivity|].
    exists "Bytescale URL gen failed: ". reflexivity.
  - intros fileData. unfold getUploadStream, uploadManager_upload. run_world.
    destruct (Bytescale.UrlBuilder_url sdk _) as [u | e].
    + destruct (Bytescale.upload sdk _ _ _) as [o r1].
      filter_trace. reflexivity.
    + filter_trace. exists "Bytescale upload stream failed: ". reflexivity.
Qed.

End Outcomes.

(** ** More on batch delete, and on how the operations compose *)

Lemma network_calls_of_requests (requests : list Bytescale.FileParams) :
  network_calls (map DeleteFileCall requests) = map DeleteFileCall requests.
Proof.
  induction requests as [|p requests IH]; cbn; [reflexivity|].
  unfold network_calls in IH. rewrite IH. reflexivity.
Qed.

Lemma warnings_are_logs
  (answered : list (ProviderDeleteFileDTO.t * Outcome unit)) :
  logs (warnings_for answered) = warnings_for answered /\
  network_calls (warnings_for answered) = [] /\
  constructions (warnings_for answered) = [].
Proof.
  unfold logs, network_calls, constructions, warnings_for.
  induction answered as [|[file [[]|e]] answered (IH1 & IH2 & IH3)];
    cbn [flat_map map snd fst app filter is_log is_network_call
         is_client_construction];
    rewrite ?IH1, ?IH2, ?IH3; repeat split.
Qed.

Lemma requests_are_calls (requests : list Bytescale.FileParams) :
  logs (map DeleteFileCall requests) = [] /\
  constructions (map DeleteFileCall requests) = [].
Proof.
  unfold logs, constructions.
  induction requests as [|p requests [IH1 IH2]]; cbn; [split; reflexivity|].
  rewrite IH1, IH2. split; reflexivity.
Qed.

Section Composition.

Context {R : Type} (sdk : Bytescale.Sdk R).
Variable this : BytescaleFileProviderService.

(** What a run of [delete] leaves behind, for a given settlement order. *)
Lemma delete_run
  (files : ProviderDeleteFileDTO.t + list ProviderDeleteFileDTO.t)
  (schedule : list nat) (w : World R) :
  let requests := map (delete_params this) (batch_of files) in
  let answers :=
    map_in_order (Bytescale.deleteFile sdk (fileApi_ this)) requests
      (remote w) in
  delete sdk this files schedule w =
    (Returned tt,
     after w
       (map DeleteFileCall requests ++
        warnings_for
          (completion_order schedule (combine (batch_of files) (fst answers))))
       (snd answers)).
Proof.
  intros requests answers. unfold delete.
  change (match files with inr array => array | inl file => [file] end)
    with (batch_of files).
  rewrite issue_all. fold requests. fold answers.
  rewrite resume_all, Promise_all_resolved. run_world. reflexivity.
Qed.

(** X11: clients are built by the constructor only: no operation of
    the service constructs an upload manager or a file API client. *)
Theorem operations_construct_no_client (w : World R) :
  (forall file,
     constructions (trace (snd (upload sdk this file w)))
     = constructions (trace w)) /\
  (forall files schedule,
     constructions (trace (snd (delete sdk this files schedule w)))
     = constructions (trace w)) /\
  (forall fileData,
     constructions (trace (snd (getPresignedDownloadUrl sdk this fileData w)))
     = constructions (trace w)) /\
  (forall fileData,
     constructions (trace (snd (getUploadStream sdk this fileData w)))
     = constructions (trace w)) /\
  (forall fileData,
     constructions (trace (snd (getDownloadStream sdk this fileData w)))
     = constructions (trace w)) /\
  (forall fileData,
     constructions (trace (snd (getAsBuffer sdk this fileData w)))
     = constructions (trace w)).
Proof.
  repeat split.
  - intros file. unfold upload, uploadManager_upload. run_world.
    destruct (Bytescale.upload sdk _ _ _) as [[result | e] r1];
      filter_trace; reflexivity.
  - intros files schedule. rewrite delete_run. unfold after.
    cbn [snd trace]. unfold constructions. rewrite !filter_app.
    fold (constructions (map DeleteFileCall
                           (map (delete_params this) (batch_of files)))).
    rewrite (proj2 (requests_are_calls _)).
    match goal with
    | |- context [filter is_client_construction (warnings_for ?a)] =>
        fold (constructions (warnings_for a));
        rewrite (proj2 (proj2 (warnings_are_logs a)))
    end.
    rewrite !app_nil_r. reflexivity.
  - intros fileData. unfold getPresignedDownloadUrl. run_world.
    destruct (Bytescale.UrlBuilder_url sdk _) as [u | e];
      filter_trace; reflexivity.
  - intros fileData. unfold getUploadStream, uploadManager_upload. run_world.
    destruct (Bytescale.UrlBuilder_url sdk _) as [u | e];
      [destruct (Bytescale.upload sdk _ _ _) as [o r1]|];
      filter_trace; reflexivity.
  - intros fileData. unfold getDownloadStream, fileApi_downloadFile. run_world.
    destruct (Bytescale.downloadFile sdk _ _ _) as [[response | e] r1];
      filter_trace; reflexivity.
  - intros fileData. unfold getAsBuffer, fileApi_downloadFile. run_world.
    destruct (Bytescale.downloadFile sdk _ _ _) as [[response | e] r1];
      [destruct (Bytescale.buffer (Bytescale.raw response)) as [b | e]|];
      filter_trace; reflexivity.
Qed.

(** X12: when the URL the remote reports for an upload is the one
    [UrlBuilder.url] builds for the account and the stored path, asking
    [getPresignedDownloadUrl] for the key [upload] returned gives the URL
    [upload] returned, with no further remote call. *)
Theorem upload_then_public_url
  (file : ProviderUploadFileDTO.t) (rest : list (string * string))
  (w : World R) (result : Bytescale.UploadResult) (r' : R) :
  Bytescale.upload sdk (uploadManager_ this) (upload_request this file)
    (remote w) = (Returned result, r') ->
  Bytescale.UrlBuilder_url sdk
    {| Bytescale.accountId := accountId (options_ this);
       Bytescale.filePath := Bytescale.filePath_ result |}
    = Returned (Bytescale.fileUrl result) ->
  (uploaded <- upload sdk this file ;;
   url <- getPresignedDownloadUrl sdk this
            {| ProviderGetFileDTO.fileKey := ProviderFileResultDTO.key uploaded;
               ProviderGetFileDTO.rest := rest |} ;;
   ret (ProviderFileResultDTO.url uploaded, url)) w =
    (Returned (Bytescale.fileUrl result, Bytescale.fileUrl result),
     after w [UploadCall (upload_request this file)] r').
Proof.
  intros E U. unfold upload, uploadManager_upload, getPresignedDownloadUrl.
  fold (upload_request this file). run_world. rewrite E.
  cbn [ProviderFileResultDTO.key ProviderFileResultDTO.url
       ProviderGetFileDTO.fileKey].
  rewrite U. reflexivity.
Qed.

(** X13: the key [upload] returns is the remote's own path for the file,
    and it is what a later [getAsBuffer] or [delete] for that key sends
    back to the remote as [filePath], with the configured account id. *)
Theorem upload_key_addresses_the_file
  (file : ProviderUploadFileDTO.t) (schedule : list nat)
  (w : World R) (result : Bytescale.UploadResult) (r' : R) :
  Bytescale.upload sdk (uploadManager_ this) (upload_request this file)
    (remote w) = (Returned result, r') ->
  let stored :=
    {| Bytescale.accountId := accountId (options_ this);
       Bytescale.filePath := Bytescale.filePath_ result |} in
  network_calls (trace (snd (
    (uploaded <- upload sdk this file ;;
     getAsBuffer sdk this
       {| ProviderGetFileDTO.fileKey := ProviderFileResultDTO.key uploaded;
          ProviderGetFileDTO.rest := [] |}) w))) =
    (network_calls (trace w) ++
     [UploadCall (upload_request this file); DownloadFileCall stored])%list /\
  network_calls (trace (snd (
    (uploaded <- upload sdk this file ;;
     delete sdk this
       (inl {| ProviderDeleteFileDTO.fileKey :=
                 ProviderFileResultDTO.key uploaded |}) schedule) w))) =
    (network_calls (trace w) ++
     [UploadCall (upload_request this file); DeleteFileCall stored])%list.
Proof.
  intros E stored. split.
  - unfold upload, uploadManager_upload, getAsBuffer, fileApi_downloadFile.
    fold (upload_request this file). run_world. rewrite E.
    cbn [ProviderFileResultDTO.key ProviderGetFileDTO.fileKey].
    fold stored.
    destruct (Bytescale.downloadFile sdk _ _ _) as [[response | e] r1];
      [destruct (Bytescale.buffer (Bytescale.raw response)) as [b | e]|];
      filter_trace; reflexivity.
  - unfold upload, uploadManager_upload.
    fold (upload_request this file). run_world. rewrite E.
    cbn [ProviderFileResultDTO.key]. rewrite delete_run.
    unfold after. cbn [snd trace].
    unfold network_calls. rewrite <- !app_assoc, !filter_app.
    match goal with
    | |- context [filter is_network_call (warnings_for ?a)] =>
        change (filter is_network_call (warnings_for a))
          with (network_calls (warnings_for a));
        rewrite (proj1 (proj2 (warnings_are_logs a)))
    end.
    cbn [batch_of map filter is_network_call app]. reflexivity.
Qed.

End Composition.

Section Batches.

Context {R : Type} (sdk : Bytescale.Sdk R).
Variable this : BytescaleFileProviderService.

(** What the filters keep of the world [delete] leaves behind. *)
Lemma delete_observed
  (files : ProviderDeleteFileDTO.t + list ProviderDeleteFileDTO.t)
  (schedule : list nat) (w : World R) :
  let requests := map (delete_params this) (batch_of files) in
  let answers :=
    map_in_order (Bytescale.deleteFile sdk (fileApi_ this)) requests
      (remote w) in
  network_calls (trace (snd (delete sdk this files schedule w))) =
    (network_calls (trace w) ++ map DeleteFileCall requests)%list /\
  remote (snd (delete sdk this files schedule w)) = snd answers /\
  logs (trace (snd (delete sdk this files schedule w))) =
    (logs (trace w) ++
     warnings_for
       (completion_order schedule (combine (batch_of files) (fst answers))))%list.
Proof.
  intros requests answers. rewrite delete_run. fold requests. fold answers.
  unfold after. cbn [snd trace remote].
  split; [|split; [reflexivity|]].
  - unfold network_calls. rewrite !filter_app.
    fold (network_calls (map DeleteFileCall requests)).
    rewrite network_calls_of_requests.
    match goal with
    | |- context [filter is_network_call (warnings_for ?a)] =>
        change (filter is_network_call (warnings_for a))
          with (network_calls (warnings_for a));
        rewrite (proj1 (proj2 (warnings_are_logs a)))
    end.
    rewrite app_nil_r. reflexivity.
  - unfold logs. rewrite !filter_app.
    fold (logs (map DeleteFileCall requests)).
    rewrite (proj1 (requests_are_calls requests)).
    match goal with
    | |- context [filter is_log (warnings_for ?a)] =>
        change (filter is_log (warnings_for a))
          with (logs (warnings_for a));
        rewrite (proj1 (warnings_are_logs a))
    end.
    reflexivity.
Qed.

(** X14: the order in which the remote calls of a batch settle changes
    nothing but the order of the warning lines: for any two settlement
    orders the same requests are sent in the same order, the remote ends
    in the same state, and the same warnings are logged. *)
Theorem delete_settlement_order_only_reorders_warnings
  (files : ProviderDeleteFileDTO.t + list ProviderDeleteFileDTO.t)
  (schedule1 schedule2 : list nat) (w : World R) :
  fst (delete sdk this files schedule1 w) =
    fst (delete sdk this files schedule2 w) /\
  network_calls (trace (snd (delete sdk this files schedule1 w))) =
    network_calls (trace (snd (delete sdk this files schedule2 w))) /\
  remote (snd (delete sdk this files schedule1 w)) =
    remote (snd (delete sdk this files schedule2 w)) /\
  Permutation (logs (trace (snd (delete sdk this files schedule1 w))))
    (logs (trace (snd (delete sdk this files schedule2 w)))).
Proof.
  destruct (delete_observed files schedule1 w) as (N1 & R1 & L1).
  destruct (delete_observed files schedule2 w) as (N2 & R2 & L2).
  rewrite N1, N2, R1, R2, L1, L2. rewrite !delete_run. cbn [fst].
  repeat split.
  apply Permutation_app_head, Permutation_flat_map.
  rewrite !completion_order_perm. reflexivity.
Qed.

(** X15: splitting a batch in two successive [delete] calls sends the
    same requests, in the same order, as the single call on the whole
    batch: one per entry, in array order; and both ways resolve. *)
Theorem delete_batches_compose
  (batch1 batch2 : list ProviderDeleteFileDTO.t)
  (schedule schedule1 schedule2 : list nat) (w : World R) :
  let whole := delete sdk this (inr (batch1 ++ batch2)%list) schedule w in
  let parts :=
    (delete sdk this (inr batch1) schedule1 ;;;
     delete sdk this (inr batch2) schedule2) w in
  let requests :=
    map (fun file =>
           {| Bytescale.accountId := accountId (options_ this);
              Bytescale.filePath := ProviderDeleteFileDTO.fileKey file |})
      (batch1 ++ batch2) in
  fst whole = Returned tt /\
  fst parts = Returned tt /\
  network_calls (trace (snd whole)) =
    (network_calls (trace w) ++ map DeleteFileCall requests)%list /\
  network_calls (trace (snd parts)) =
    (network_calls (trace w) ++ map DeleteFileCall requests)%list.
Proof.
  intros whole parts requests.
  destruct (delete_observed (inr (batch1 ++ batch2)%list) schedule w)
    as (N & _ & _).
  fold whole in N.
  assert (P : parts =
    delete sdk this (inr batch2) schedule2
      (snd (delete sdk this (inr batch1) schedule1 w))).
  { unfold parts, bind. rewrite (delete_run sdk this (inr batch1)).
    reflexivity. }
  destruct (delete_observed (inr batch1) schedule1 w) as (N1 & _ & _).
  destruct (delete_observed (inr batch2) schedule2
              (snd (delete sdk this (inr batch1) schedule1 w)))
    as (N2 & _ & _).
  rewrite <- P in N2. cbn [batch_of] in *.
  split; [unfold whole; rewrite delete_run; reflexivity|].
  split; [rewrite P, delete_run; reflexivity|].
  split; [exact N|].
  rewrite N2, N1. unfold requests.
  rewrite !map_app, app_assoc. reflexivity.
Qed.

End Batches.

(** ** The root folder *)

(** X16: with the prefix "/" the folder path is "/" itself, so the key a
    streaming upload predicts is "//" followed by the file name. *)
Theorem getUploadStream_root_folder_key {R : Type} (sdk : Bytescale.Sdk R)
  (this : BytescaleFileProviderService)
  (fileData : ProviderUploadStreamDTO.t) (w w' : World R)
  (handle : UploadStreamHandle) :
  prefix (options_ this) = Some "/" ->
  getUploadStream sdk this fileData w = (Returned handle, w') ->
  fileKey handle = "//" ++ ProviderUploadStreamDTO.filename fileData.
Proof.
  intros P. unfold getUploadStream, uploadManager_upload. run_world.
  assert (F : getUploadPath this = "/")
    by (unfold getUploadPath; rewrite P; reflexivity).
  rewrite F.
  destruct (Bytescale.UrlBuilder_url sdk _) as [u | e]; [|discriminate].
  destruct (Bytescale.upload sdk _ _ _) as [o r1].
  intros H. injection H as <- <-. reflexivity.
Qed.

(** ** The further statements at work on the fixtures *)

(** The prefix "media/" ends with one slash only: the contract holds. *)
Lemma getUploadPath_output_contract_witness :
  (forall s, prefix (options_ Fixture.service) = Some s ->
             Js.endsWith s "//" = false) /\
  Js.startsWith (getUploadPath Fixture.service) "/" = true /\
  (Js.endsWith (getUploadPath Fixture.service) "/" = true ->
   getUploadPath Fixture.service = "/").
Proof.
  assert (H : forall s, prefix (options_ Fixture.service) = Some s ->
                        Js.endsWith s "//" = false)
    by (intros s E; injection E as <-; reflexivity).
  split; [exact H|].
  exact (getUploadPath_output_contract Fixture.service H).
Defined.

(** "media/" normalizes to "/media", and "/media" to itself. *)
Lemma getUploadPath_idempotent_witness :
  getUploadPath Fixture.service = "/media" /\
  getUploadPath (Fixture.service_at (Some "/media")) =
    getUploadPath Fixture.service.
Proof.
  split; [reflexivity|].
  apply (getUploadPath_idempotent Fixture.service
           (Fixture.service_at (Some "/media"))).
  - intros s E. injection E as <-. reflexivity.
  - reflexivity.
Defined.

(** "/media" and "media" name the same folder. *)
Lemma getUploadPath_leading_slash_optional_witness :
  getUploadPath (Fixture.service_at (Some "/media")) =
    getUploadPath (Fixture.service_at (Some "media")).
Proof.
  apply (getUploadPath_leading_slash_optional
           (Fixture.service_at (Some "media"))
           (Fixture.service_at (Some "/media")) "media").
  - discriminate.
  - reflexivity.
  - reflexivity.
  - reflexivity.
Defined.

(** "media/" and "media" name the same folder. *)
Lemma getUploadPath_trailing_slash_optional_witness :
  getUploadPath (Fixture.service_at (Some "media/")) =
    getUploadPath (Fixture.service_at (Some "media")).
Proof.
  apply (getUploadPath_trailing_slash_optional
           (Fixture.service_at (Some "media"))
           (Fixture.service_at (Some "media/")) "media").
  - discriminate.
  - reflexivity.
  - reflexivity.
  - reflexivity.
Defined.

(** No api key: the api key is named; an empty account id with a key:
    the account id is named. *)
Lemma constructor_reports_first_missing_option_witness :
  constructor Fixture.honest Fixture.options_without_key (Fixture.world 0) =
    (Thrown (MedusaError INVALID_DATA
               "Bytescale provider requires 'apiKey' option."),
     Fixture.world 0) /\
  constructor Fixture.honest Fixture.options_without_account
    (Fixture.world 0) =
    (Thrown (MedusaError INVALID_DATA
               "Bytescale provider requires 'accountId' option."),
     Fixture.world 0).
Proof.
  split.
  - apply (proj1 (constructor_reports_first_missing_option Fixture.honest
                    Fixture.options_without_key (Fixture.world 0))).
    left. reflexivity.
  - apply (proj2 (constructor_reports_first_missing_option Fixture.honest
                    Fixture.options_without_account (Fixture.world 0))).
    + exists "secret_k". split; [reflexivity | discriminate].
    + right. reflexivity.
Defined.

(** The service built from the fixture options asks for account "acct". *)
Lemma constructor_success_inversion_witness :
  constructor Fixture.honest Fixture.options (Fixture.world 0) =
    (Returned Fixture.service,
     after (Fixture.world 0)
       [NewUploadManager Fixture.config; NewFileApi Fixture.config] 0) /\
  non_empty (accountId Fixture.options).
Proof.
  assert (H : constructor Fixture.honest Fixture.options (Fixture.world 0) =
    (Returned Fixture.service,
     after (Fixture.world 0)
       [NewUploadManager Fixture.config; NewFileApi Fixture.config] 0))
    by reflexivity.
  split; [exact H|].
  exact (proj1 (proj2 (constructor_success_inversion _ _ _ _ _ H))).
Defined.

(** A streaming upload on the honest remote. *)
Lemma getUploadStream_handle_witness :
  exists handle w',
    getUploadStream Fixture.honest Fixture.service Fixture.photo_stream
      (Fixture.world 0) = (Returned handle, w') /\
    writeStream handle = Stream 0 /\
    fileKey handle = "/media/a.png" /\
    network_calls (trace w') =
      [UploadCall
         {| Bytescale.data := writeStream handle;
            Bytescale.mime := "image/png";
            Bytescale.originalFileName := "a.png";
            Bytescale.folderPath := "/media" |}].
Proof.
  eexists. eexists.
  assert (H : getUploadStream Fixture.honest Fixture.service
                Fixture.photo_stream (Fixture.world 0) =
              (Returned
                 {| writeStream := Stream 0;
                    promise :=
                      Returned
                        {| ProviderFileResultDTO.url :=
                             "https://upcdn.io/acct/raw/media/a.png";
                           ProviderFileResultDTO.key := "/media/a.png" |};
                    url := "https://upcdn.io/acct/raw/media/a.png";
                    fileKey := "/media/a.png" |},
               {| trace :=
                    [UploadCall (stream_upload_request Fixture.service
                                   Fixture.photo_stream (Fixture.world 0))];
                  remote := 1; streams := 1 |}))
    by reflexivity.
  split; [exact H|].
  pose proof (getUploadStream_handle Fixture.honest Fixture.service
                Fixture.photo_stream _ _ _ H) as (T & _ & K & _).
  split; [reflexivity|]. split; [exact K|].
  rewrite T. reflexivity.
Defined.

(** The remote refuses the upload: the handle is still returned, and the
    trace holds the upload call only. *)
Lemma getUploadStream_rejection_stays_in_promise_witness :
  getUploadStream Fixture.truncating Fixture.service Fixture.photo_stream
    (Fixture.world 0) =
    (Returned
       {| writeStream := Stream 0;
          promise := Thrown Fixture.outage;
          url := "https://upcdn.io/acct/raw/media/a.png";
          fileKey := "/media/a.png" |},
     {| trace :=
          [UploadCall (stream_upload_request Fixture.service
                         Fixture.photo_stream (Fixture.world 0))];
        remote := 1; streams := 1 |}).
Proof.
  exact (getUploadStream_rejection_stays_in_promise Fixture.truncating
           Fixture.service Fixture.photo_stream (Fixture.world 0)
           "https://upcdn.io/acct/raw/media/a.png" Fixture.outage 1
           eq_refl eq_refl).
Defined.

(** The URL builder throws: no upload is started. *)
Lemma getUploadStream_url_failure_witness :
  getUploadStream Fixture.unreachable Fixture.service Fixture.photo_stream
    (Fixture.world 0) =
    (Thrown Fixture.outage,
     {| trace := [LoggerError "Bytescale upload stream failed: 503"];
        remote := 0; streams := 1 |}).
Proof.
  exact (proj1 (getUploadStream_url_failure Fixture.unreachable
                  Fixture.service Fixture.photo_stream (Fixture.world 0)
                  Fixture.outage eq_refl)).
Defined.

(** Upload on the honest remote, then ask for the public URL of the key. *)
Lemma upload_then_public_url_witness :
  (uploaded <- upload Fixture.honest Fixture.service Fixture.photo ;;
   url <- getPresignedDownloadUrl Fixture.honest Fixture.service
            (Fixture.get (ProviderFileResultDTO.key uploaded) []) ;;
   ret (ProviderFileResultDTO.url uploaded, url)) (Fixture.world 0) =
    (Returned ("https://upcdn.io/acct/raw/media/a.png",
               "https://upcdn.io/acct/raw/media/a.png"),
     after (Fixture.world 0)
       [UploadCall (upload_request Fixture.service Fixture.photo)] 1).
Proof.
  exact (upload_then_public_url Fixture.honest Fixture.service Fixture.photo
           [] (Fixture.world 0)
           {| Bytescale.fileUrl := "https://upcdn.io/acct/raw/media/a.png";
              Bytescale.filePath_ := "/media/a.png" |} 1 eq_refl eq_refl).
Defined.

(** Upload on the honest remote, then delete the key it returned. *)
Lemma upload_key_addresses_the_file_witness :
  network_calls (trace (snd (
    (uploaded <- upload Fixture.honest Fixture.service Fixture.photo ;;
     delete Fixture.honest Fixture.service
       (inl (Fixture.del (ProviderFileResultDTO.key uploaded))) [])
      (Fixture.world 0)))) =
    [UploadCall (upload_request Fixture.service Fixture.photo);
     DeleteFileCall (file_request Fixture.service "/media/a.png")].
Proof.
  exact (proj2 (upload_key_addresses_the_file Fixture.honest Fixture.service
                  Fixture.photo [] (Fixture.world 0)
                  {| Bytescale.fileUrl :=
                       "https://upcdn.io/acct/raw/media/a.png";
                     Bytescale.filePath_ := "/media/a.png" |} 1 eq_refl)).
Defined.

(** A service for the root folder predicts "//a.png". *)
Lemma getUploadStream_root_folder_key_witness :
  exists handle w',
    getUploadStream Fixture.honest (Fixture.service_at (Some "/"))
      Fixture.photo_stream (Fixture.world 0) = (Returned handle, w') /\
    fileKey handle = "//a.png".
Proof.
  eexists. eexists.
  assert (H : getUploadStream Fixture.honest (Fixture.service_at (Some "/"))
                Fixture.photo_stream (Fixture.world 0) =
              (Returned
                 {| writeStream := Stream 0;
                    promise :=
                      Returned
                        {| ProviderFileResultDTO.url :=
                             "https://upcdn.io/acct/raw//a.png";
                           ProviderFileResultDTO.key := "//a.png" |};
                    url := "https://upcdn.io/acct/raw//a.png";
                    fileKey := "//a.png" |},
               {| trace :=
                    [UploadCall
                       (stream_upload_request (Fixture.service_at (Some "/"))
                          Fixture.photo_stream (Fixture.world 0))];
                  remote := 1; streams := 1 |}))
    by reflexivity.
  split; [exact H|].
  exact (getUploadStream_root_folder_key Fixture.honest
           (Fixture.service_at (Some "/")) Fixture.photo_stream _ _ _
           eq_refl H).
Defined.
